(** * bee-brain: the chat client, the Slack bot handlers and the tool-schema
    generator, embedded as Rocq functions.

    Python values are modelled by [Py.pyval]; external services (the Slack
    Web API, the Ollama HTTP endpoint, the Bolt event router) are oracles
    collected in a record; effects are threaded through a state-and-exception
    monad whose state survives a raised exception, as in Python. *)

From Stdlib Require Import String Ascii List ZArith Lia Bool.
From stdpp Require Import base option list strings pretty gmap.

Local Open Scope Z_scope.
Set Warnings "-register-all".

(** ** Python values *)

Module Py.

(** The values that [json.loads] produces and [json.dumps] consumes.  Numbers
    are integers only (floats do not occur in the fields the code reads);
    a [str] is a sequence of code points below 256.  A [dict] keeps its
    insertion order, which [json.dumps] prints. *)
Inductive pyval : Type :=
  | VNone
  | VBool (b : bool)
  | VInt (n : Z)
  | VStr (s : string)
  | VList (l : list pyval)
  | VDict (d : list (string * pyval)).

Abbreviation dict := (list (string * pyval)).

(** [d[k]] / the lookup behind [d.get(k)] and [k in d]. *)
Fixpoint dict_lookup (k : string) (d : dict) : option pyval :=
  match d with
  | [] => None
  | (k', v) :: d' => if String.eqb k k' then Some v else dict_lookup k d'
  end.

(** [k in d] *)
Definition dict_has (k : string) (d : dict) : bool :=
  match dict_lookup k d with Some _ => true | None => false end.

(** [d.get(k, default)] *)
Definition dict_get (k : string) (d : dict) (default : pyval) : pyval :=
  match dict_lookup k d with Some v => v | None => default end.

(** [d[k] = v]: replaces the value of an existing key in place, appends a
    new key at the end. *)
Fixpoint dict_set (k : string) (v : pyval) (d : dict) : dict :=
  match d with
  | [] => [(k, v)]
  | (k', v') :: d' =>
      if String.eqb k k' then (k', v) :: d' else (k', v') :: dict_set k v d'
  end.

(** Truth value of an object, as tested by [if x:] and [assert x]. *)
Definition truthy (v : pyval) : bool :=
  match v with
  | VNone => false
  | VBool b => b
  | VInt n => negb (n =? 0)
  | VStr s => negb (String.eqb s "")
  | VList l => match l with [] => false | _ => true end
  | VDict d => match d with [] => false | _ => true end
  end.

(** [x is False] *)
Definition is_False (v : option pyval) : bool :=
  match v with Some (VBool false) => true | _ => false end.

(** Exceptions that the modelled code raises or lets through. *)
Inductive exn : Type :=
  | Exception (arg : pyval)
  | ValueError (msg : string)
  | UnboundLocalError (name : string)
  | AttributeError (attr : string)
  | TypeError
  | AssertionError
  | JSONDecodeError
  | HTTPError (status : Z)
  | SlackApiError (response : dict)
  | OtherError (name : string).

Inductive outcome (A : Type) : Type :=
  | Ret (a : A)
  | Raise (e : exn).
Arguments Ret {A} a.
Arguments Raise {A} e.

(** *** [json.dumps(obj, indent=2)] *)

Definition dq : string := String (ascii_of_nat 34) "".
Definition nl : string := String (ascii_of_nat 10) "".

Definition hex_digit (n : nat) : ascii :=
  match n with
  | 0%nat => "0" | 1%nat => "1" | 2%nat => "2" | 3%nat => "3" | 4%nat => "4"
  | 5%nat => "5" | 6%nat => "6" | 7%nat => "7" | 8%nat => "8" | 9%nat => "9"
  | 10%nat => "a" | 11%nat => "b" | 12%nat => "c" | 13%nat => "d"
  | 14%nat => "e" | _ => "f"
  end%char.

(** One character under [encode_basestring_ascii]: the short escapes, and
    [\u00xx] for everything else outside the range space..tilde.  A [str]
    of this model holds code points below 256 only; the encoder's cases for
    larger code points (four other hex digits, surrogate pairs) are not
    modelled, and nothing is stated here about texts that hold them. *)
Definition escape_char (c : ascii) : string :=
  let n := nat_of_ascii c in
  if (n =? 34)%nat then "\" +:+ dq
  else if (n =? 92)%nat then "\\"
  else if (n =? 10)%nat then "\n"
  else if (n =? 13)%nat then "\r"
  else if (n =? 9)%nat then "\t"
  else if (n =? 8)%nat then "\b"
  else if (n =? 12)%nat then "\f"
  else if ((32 <=? n) && (n <=? 126))%nat then String c ""
  else "\u00" +:+ String (hex_digit (n / 16)) (String (hex_digit (n mod 16)) "").

Fixpoint escape (s : string) : string :=
  match s with
  | EmptyString => ""
  | String c s' => escape_char c +:+ escape s'
  end.

Definition encode_basestring_ascii (s : string) : string :=
  dq +:+ escape s +:+ dq.

(** The line break and indentation written before an item at nesting
    depth [level]. *)
Fixpoint spaces (n : nat) : string :=
  match n with O => "" | S n' => " " +:+ spaces n' end.

Definition newline_indent (indent level : nat) : string :=
  nl +:+ spaces (indent * level).

Fixpoint dumps (indent level : nat) (v : pyval) {struct v} : string :=
  match v with
  | VNone => "null"
  | VBool true => "true"
  | VBool false => "false"
  | VInt n => pretty n
  | VStr s => encode_basestring_ascii s
  | VList [] => "[]"
  | VList (x :: xs) =>
      "[" +:+ newline_indent indent (S level) +:+ dumps indent (S level) x
      +:+ (fix items (l : list pyval) : string :=
             match l with
             | [] => ""
             | y :: l' =>
                 "," +:+ newline_indent indent (S level)
                 +:+ dumps indent (S level) y +:+ items l'
             end) xs
      +:+ newline_indent indent level +:+ "]"
  | VDict [] => "{}"
  | VDict ((k, x) :: xs) =>
      "{" +:+ newline_indent indent (S level)
      +:+ encode_basestring_ascii k +:+ ": " +:+ dumps indent (S level) x
      +:+ (fix items (l : dict) : string :=
             match l with
             | [] => ""
             | (k', y) :: l' =>
                 "," +:+ newline_indent indent (S level)
                 +:+ encode_basestring_ascii k' +:+ ": "
                 +:+ dumps indent (S level) y +:+ items l'
             end) xs
      +:+ newline_indent indent level +:+ "}"
  end.

Definition json_dumps (indent : nat) (v : pyval) : string := dumps indent 0 v.

End Py.

Import Py.

(** ** AiToolTag.py *)

Module AiToolTag.

(** What [str()] prints for a resolved type hint: a class, or any other
    annotation object given by its text. *)
Inductive hint : Type :=
  | Class (name : string)
  | Annotation (text : string).

Definition hint_str (h : hint) : string :=
  match h with
  | Class name => "<class '" +:+ name +:+ "'>"
  | Annotation text => text
  end.

(** A function object as the generator inspects it: its [__name__], its
    parameters in declaration order with their annotations, its return
    annotation, and the [_aitool_description] attribute when it has one. *)
Record pyfunc : Type := {
  func_name : string;
  parameters : list (string * option hint);
  return_annotation : option hint;
  aitool_description : option string
}.

(** [@aitool(description)]: [functools.wraps] keeps name, signature and
    annotations; the wrapper gets the description attribute. *)
Definition aitool (description : string) (func : pyfunc) : pyfunc :=
  {| func_name := func_name func;
     parameters := parameters func;
     return_annotation := return_annotation func;
     aitool_description := Some description |}.

(** [str(type_hints.get(name, "Any"))] *)
Definition hint_text (h : option hint) : string :=
  match h with Some t => hint_str t | None => "Any" end.

(** The [params] list built by the loop over [signature.parameters]. *)
Definition param_infos (func : pyfunc) : list dict :=
  map (fun p => [("name", VStr (fst p)); ("type", VStr (hint_text (snd p)))])
      (parameters func).

(** [{param["name"]: param["type"] for param in params}] *)
Definition properties (params : list dict) : dict :=
  fold_left
    (fun acc param =>
       match dict_get "name" param VNone with
       | VStr name => dict_set name (dict_get "type" param VNone) acc
       | _ => acc
       end)
    params [].

(** The [description] object assembled before serialisation. *)
Definition descriptor (func : pyfunc) (text : string) : pyval :=
  let params := param_infos func in
  let return_type := hint_text (return_annotation func) in
  VDict [
    ("type", VStr "function");
    ("function", VDict [
       ("name", VStr (func_name func));
       ("description", VStr text);
       ("parameters", VDict [
          ("type", VStr "object");
          ("properties", VDict (properties params))]);
       ("input_params", VList (map VDict params));
       ("output_type", VStr return_type)])].

Definition generate_json_description (func : pyfunc) : outcome string :=
  match aitool_description func with
  | None =>
      Raise (ValueError
               ("Function " +:+ func_name func +:+ " is not tagged with @AITool"))
  | Some text => Ret (json_dumps 2 (descriptor func text))
  end.

(** The two tagged example functions of the module. *)
Definition add : pyfunc :=
  aitool "Adds two numbers and returns the result"
    {| func_name := "add";
       parameters := [("a", Some (Class "int")); ("b", Some (Class "int"))];
       return_annotation := Some (Class "int");
       aitool_description := None |}.

Definition greet : pyfunc :=
  aitool "Greets a person with an optional custom greeting"
    {| func_name := "greet";
       parameters := [("name", Some (Class "str")); ("greeting", Some (Class "str"))];
       return_annotation := Some (Class "str");
       aitool_description := None |}.

End AiToolTag.

(** ** The runtime: a store of list objects, a trace of effects, services *)

Module Runtime.

(** A reference to a list object.  Lists are the only objects the modelled
    code mutates while another name still refers to them, so they live in
    the store; everything else is an immutable [pyval]. *)
Abbreviation loc := positive.

(** One line of [r.iter_lines()] together with what [json.loads] makes of
    it: a JSON object, or text that does not parse. *)
Inductive line : Type :=
  | Json (body : dict)
  | NotJson.

(** The [requests] response: status code and the streamed lines. *)
Record response : Type := {
  status_code : Z;
  iter_lines : list line
}.

(** Effects the outside world can observe, in the order they happen. *)
Inductive event : Type :=
  | Log (text : string)
  | ConversationsReplies (channel ts : pyval) (limit : Z) (cursor : pyval)
  | RequestsPost (url : string) (json : dict) (stream : bool)
  | ChatPostMessage (channel text thread_ts : pyval)
  | ReactionsRemove (channel timestamp name : pyval)
  | HandlerHandle (data : pyval).

Record world : Type := {
  heap : gmap loc (list pyval);
  trace : list event
}.

(** Computations: the world is threaded through, and is kept when an
    exception is raised. *)
Definition M (A : Type) : Type := world -> outcome A * world.

(** What the external services answer.  The Bolt event router runs
    listeners of its own, so it is a computation; the others are calls whose
    answer is all the program sees.  [container_repr] is Python's [repr] of
    a list or dict, which [str()] and f-strings print. *)
Record services : Type := {
  conversations_replies : pyval -> pyval -> Z -> pyval -> outcome dict;
  requests_post : string -> dict -> bool -> outcome response;
  chat_postMessage : pyval -> pyval -> pyval -> outcome dict;
  reactions_remove : pyval -> pyval -> pyval -> outcome dict;
  handler_handle : pyval -> M pyval;
  container_repr : pyval -> string
}.

#[export] Instance M_ret : MRet M := fun A a w => (Ret a, w).
#[export] Instance M_bind : MBind M := fun A B f m w =>
  match m w with
  | (Ret a, w') => f a w'
  | (Raise e, w') => (Raise e, w')
  end.

Definition throw {A : Type} (e : exn) : M A := fun w => (Raise e, w).

Definition lift {A : Type} (o : outcome A) : M A := fun w => (o, w).

(** [try: body except SlackApiError as e: handler(e.response)] *)
Definition try_except_SlackApiError {A : Type} (body : M A) (handler : dict -> M A) : M A :=
  fun w =>
    match body w with
    | (Raise (SlackApiError resp), w') => handler resp w'
    | r => r
    end.

Definition emit (e : event) : M unit :=
  fun w => (Ret tt, {| heap := heap w; trace := trace w ++ [e] |}).

(** [logging.info(text)] *)
Definition logging_info (text : string) : M unit := emit (Log text).

(** A list display or comprehension: a new list object. *)
Definition new_list (l : list pyval) : M loc :=
  fun w =>
    let r := fresh (dom (heap w)) in
    (Ret r, {| heap := <[r := l]> (heap w); trace := trace w |}).

(** The current contents of a list object. *)
Definition read_list (r : loc) : M (list pyval) :=
  fun w =>
    match heap w !! r with
    | Some l => (Ret l, w)
    | None => (Raise (AttributeError "list"), w)
    end.

(** [r.insert(0, x)].  A reference that names no list object stands for a
    value without that method. *)
Definition list_insert0 (r : loc) (x : pyval) : M unit :=
  fun w =>
    match heap w !! r with
    | Some l => (Ret tt, {| heap := <[r := x :: l]> (heap w); trace := trace w |})
    | None => (Raise (AttributeError "insert"), w)
    end.

(** [str(v)], as an f-string formats a value. *)
Definition py_str (svc : services) (v : pyval) : string :=
  match v with
  | VNone => "None"
  | VBool true => "True"
  | VBool false => "False"
  | VInt n => pretty n
  | VStr s => s
  | VList _ | VDict _ => container_repr svc v
  end.

(** [assert x] *)
Definition py_assert (x : pyval) : M unit :=
  if truthy x then mret tt else throw AssertionError.

End Runtime.

Import Runtime.

(** ** llmInteract.py *)

Module LlmInteract.

Definition model : string := "llama3.1:latest".

Definition endpoint : string := "http://0.0.0.0:11434/api/chat".

Definition system_message : pyval :=
  VDict [("role", VStr "system");
         ("content", VStr "Messages coming to you will have the format: <user id>:<message>. Your name is BeeBrain and you are slack chat bot. Keep answers as short as possible, friendly. You can reply without saying your name.")].

(** The locals of the streaming loop: [output], and [message], which is
    unbound ([None] here) until a [done: false] frame assigns it. *)
Record locals : Type := {
  output : string;
  message : option pyval
}.

Definition initial : locals := {| output := ""; message := None |}.

(** How one pass through the loop body ends. *)
Inductive step : Type :=
  | Next (st : locals)
  | Return (v : pyval)
  | Throw (e : exn).

(** The first [if] of the body: [if body.get("done") is False: ...]. *)
Definition accumulate (st : locals) (body : dict) : step :=
  if is_False (dict_lookup "done" body) then
    match dict_get "message" body (VStr "") with
    | VDict m =>
        match dict_get "content" m (VStr "") with
        | VStr content =>
            Next {| output := output st +:+ content; message := Some (VDict m) |}
        | _ => Throw TypeError
        end
    | _ => Throw (AttributeError "get")
    end
  else Next st.

(** The second [if] of the body: [if body.get("done", False): ...]. *)
Definition finish (st : locals) (body : dict) : step :=
  if truthy (dict_get "done" body (VBool false)) then
    match message st with
    | None => Throw (UnboundLocalError "message")
    | Some (VDict m) =>
        let m' := dict_set "content" (VStr (output st)) m in
        match dict_lookup "content" m' with
        | Some v => Return v
        | None => Throw (OtherError "KeyError")
        end
    | Some _ => Throw TypeError
    end
  else Next st.

(** The loop body for one line of the response. *)
Definition frame (st : locals) (ln : line) : step :=
  match ln with
  | NotJson => Throw JSONDecodeError
  | Json body =>
      match dict_lookup "error" body with
      | Some err => Throw (Exception err)
      | None =>
          match accumulate st body with
          | Next st' => finish st' body
          | r => r
          end
      end
  end.

(** [for line in r.iter_lines(): ...]: the outcome, and the lines that were
    never taken from the iterator.  When the iterator is exhausted the
    function falls off its end and returns [None]. *)
Fixpoint stream_loop (st : locals) (lines : list line) : outcome pyval * list line :=
  match lines with
  | [] => (Ret VNone, [])
  | ln :: rest =>
      match frame st ln with
      | Next st' => stream_loop st' rest
      | Return v => (Ret v, rest)
      | Throw e => (Raise e, rest)
      end
  end.

(** [r.raise_for_status()] *)
Definition raise_for_status (r : response) : M unit :=
  if (400 <=? status_code r) && (status_code r <? 600)
  then throw (HTTPError (status_code r))
  else mret tt.

(** The [json=] argument of the request, serialised when it is sent. *)
Definition request_json (messages : list pyval) : dict :=
  [("model", VStr model); ("messages", VList messages); ("stream", VBool true)].

Definition chat (svc : services) (messages : loc) : M pyval :=
  list_insert0 messages system_message ;;
  logging_info "Invoking LLM chat enpoint ..." ;;
  sent ← read_list messages ;
  emit (RequestsPost endpoint (request_json sent) true) ;;
  r ← lift (requests_post svc endpoint (request_json sent) true) ;
  raise_for_status r ;;
  lift (fst (stream_loop initial (iter_lines r))).

End LlmInteract.

(** ** slack_utilities.py *)

Module SlackUtilities.

(** One element of the comprehension that builds [messageList]. *)
Definition thread_entry (svc : services) (item : pyval) : outcome pyval :=
  match item with
  | VDict d =>
      Ret (VDict [("role", VStr "user");
                  ("content", VStr (py_str svc (dict_get "user" d (VStr ""))
                                    +:+ ": "
                                    +:+ py_str svc (dict_get "text" d (VStr ""))))])
  | _ => Raise (AttributeError "get")
  end.

Fixpoint thread_entries (svc : services) (items : list pyval) : outcome (list pyval) :=
  match items with
  | [] => Ret []
  | item :: rest =>
      match thread_entry svc item with
      | Raise e => Raise e
      | Ret m =>
          match thread_entries svc rest with
          | Raise e => Raise e
          | Ret ms => Ret (m :: ms)
          end
      end
  end.

(** [len(messages)] for whatever [response.get('messages', [])] is. *)
Definition py_len (v : pyval) : outcome nat :=
  match v with
  | VList l => Ret (length l)
  | VDict d => Ret (length d)
  | VStr s => Ret (String.length s)
  | _ => Raise TypeError
  end.

(** The items a [for] over the value yields: list elements, dict keys, the
    characters of a string. *)
Definition py_iter (v : pyval) : outcome (list pyval) :=
  match v with
  | VList l => Ret l
  | VDict d => Ret (map (fun kv => VStr (fst kv)) d)
  | VStr s => Ret (map (fun c => VStr (String c "")) (list_ascii_of_string s))
  | _ => Raise TypeError
  end.

(** In the handler, [e.response["error"]] reads a [SlackResponse], whose
    missing keys read as [None]. *)
Definition fetch_thread_message (svc : services) (channel thread_ts : pyval)
    (max_messages : Z) : M loc :=
  try_except_SlackApiError
    (let cursor := VNone in
     emit (ConversationsReplies channel thread_ts max_messages cursor) ;;
     response ← lift (conversations_replies svc channel thread_ts max_messages cursor) ;
     let messages := dict_get "messages" response (VList []) in
     n ← lift (py_len messages) ;
     logging_info ("Thread messages extracted contains " +:+ pretty n +:+ " messages") ;;
     items ← lift (py_iter messages) ;
     messageList ← lift (thread_entries svc items) ;
     new_list messageList)
    (fun e_response =>
       py_assert (dict_get "error" e_response VNone) ;;
       new_list []).

Definition default_max_messages : Z := 50.

End SlackUtilities.

(** ** beebrain_app.py *)

Module BeebrainApp.

Import LlmInteract SlackUtilities.

Definition remove_reaction (svc : services) (channel ts reaction : pyval) : M pyval :=
  try_except_SlackApiError
    (emit (ReactionsRemove channel ts reaction) ;;
     response ← lift (reactions_remove svc channel ts reaction) ;
     logging_info ("Reaction " +:+ py_str svc reaction +:+ " removed from message "
                   +:+ py_str svc ts +:+ " in " +:+ py_str svc channel) ;;
     mret (VDict response))
    (fun e_response =>
       py_assert (dict_get "error" e_response VNone) ;;
       mret VNone).

Definition handle_messages (svc : services) (body : dict) : M pyval :=
  match dict_get "event" body (VDict []) with
  | VDict event =>
      let text := dict_get "text" body (VStr "") in
      let channel := dict_get "channel" event (VStr "") in
      if dict_has "thread_ts" event then
        let parent_ts := dict_get "thread_ts" event (VStr "") in
        let timestamp := dict_get "ts" event (VStr "") in
        let emoji := VStr "eyes" in
        history ← fetch_thread_message svc channel parent_ts default_max_messages ;
        response ← chat svc history ;
        logging_info ("Response from LLM: " +:+ py_str svc response) ;;
        emit (ChatPostMessage channel response parent_ts) ;;
        _ ← lift (chat_postMessage svc channel response parent_ts) ;
        remove_reaction svc channel timestamp emoji ;;
        mret VNone
      else mret VNone
  | _ => throw (AttributeError "get")
  end.

(** [jsonify(obj)]: the response whose body is the JSON of [obj]. *)
Definition jsonify (obj : dict) : pyval := VDict obj.

(** The [POST /] route; [data] is [request.json], any JSON value.  Only an
    object has the [get] method the route calls first. *)
Definition index (svc : services) (data : pyval) : M pyval :=
  match data with
  | VDict d =>
      if truthy (dict_get "challenge" d (VBool false)) then
        mret (jsonify [("challenge", dict_get "challenge" d VNone)])
      else
        emit (HandlerHandle data) ;;
        handler_handle svc data
  | _ => throw (AttributeError "get")
  end.

End BeebrainApp.

(** ** llmInteract.py: the interactive loop *)

Module InteractiveSession.

Import LlmInteract.

(** [r.append(x)] *)
Definition list_append (r : loc) (x : pyval) : M unit :=
  fun w =>
    match heap w !! r with
    | Some l => (Ret tt, {| heap := <[r := l ++ [x]]> (heap w); trace := trace w |})
    | None => (Raise (AttributeError "append"), w)
    end.

Definition prompt : string := "Enter a prompt: ".

(** The message appended for a line typed by the user. *)
Definition user_message (user_input : string) : pyval :=
  VDict [("role", VStr "user"); ("content", VStr user_input)].

(** [while True: ...] over the lines still to come on standard input;
    [stdout] collects what has been written.  [input] raises [EOFError]
    when no line is left, [exit()] raises [SystemExit]; [print()] writes a
    line feed, [print("\n\n")] writes three. *)
Fixpoint session (svc : services) (messages : loc) (stdin : list string)
    (stdout : list string) (w : world) : outcome unit * world * list string :=
  match stdin with
  | [] => (Raise (OtherError "EOFError"), w, stdout ++ [prompt])
  | user_input :: stdin' =>
      if String.eqb user_input "" then
        (Raise (OtherError "SystemExit"), w, stdout ++ [prompt])
      else
        match list_append messages (user_message user_input) w with
        | (Raise e, w1) => (Raise e, w1, stdout ++ [prompt; nl])
        | (Ret _, w1) =>
            match chat svc messages w1 with
            | (Raise e, w2) => (Raise e, w2, stdout ++ [prompt; nl])
            | (Ret message, w2) =>
                match list_append messages message w2 with
                | (Raise e, w3) => (Raise e, w3, stdout ++ [prompt; nl])
                | (Ret _, w3) =>
                    session svc messages stdin'
                      (stdout ++ [prompt; nl; nl +:+ nl +:+ nl]) w3
                end
            end
        end
  end.

Definition main (svc : services) (stdin : list string) (w : world)
    : outcome unit * world * list string :=
  match new_list [] w with
  | (Ret messages, w0) => session svc messages stdin [] w0
  | (Raise e, w0) => (Raise e, w0, [])
  end.

End InteractiveSession.

(** ** slack_utilities.py: the user name lookup *)

Module UserNames.

(** [client] is the [users_info] method of the Slack client it is called
    with.  In the handler, [e.response["error"]] reads a [SlackResponse],
    whose missing keys read as [None]. *)
Definition get_user_name (users_info : pyval -> outcome dict) (user_id : pyval)
    : outcome pyval :=
  match users_info user_id with
  | Ret response =>
      match dict_get "user" response (VDict []) with
      | VDict user_info => Ret (dict_get "real_name" user_info (VStr "Unknown User"))
      | _ => Raise (AttributeError "get")
      end
  | Raise (SlackApiError e_response) =>
      if truthy (dict_get "error" e_response VNone)
      then Ret (VStr "Unknown User")
      else Raise AssertionError
  | Raise e => Raise e
  end.

End UserNames.

(** ** beebrain_app.py: the mention handler and the events route *)

Module Mentions.

Import BeebrainApp.

(** The effects of the mention handler: those of the other handlers, and
    the call that adds a reaction. *)
Inductive mention_event : Type :=
  | Core (e : event)
  | ReactionsAdd (channel timestamp name : pyval).

(** The services of the other handlers, and the call that adds a
    reaction. *)
Record mention_services : Type := {
  core : services;
  reactions_add : pyval -> pyval -> pyval -> outcome dict
}.

(** The handler touches no list object, so its state is the trace alone. *)
Definition T (A : Type) : Type := list mention_event -> outcome A * list mention_event.

Definition add_reaction (svc : mention_services) (channel ts reaction : pyval) : T pyval :=
  fun tr =>
    let tr1 := tr ++ [ReactionsAdd channel ts reaction] in
    match reactions_add svc channel ts reaction with
    | Ret response =>
        (Ret (VDict response),
         tr1 ++ [Core (Log ("Reaction " +:+ py_str (core svc) reaction
                            +:+ " added to message " +:+ py_str (core svc) ts
                            +:+ " in " +:+ py_str (core svc) channel))])
    | Raise (SlackApiError e_response) =>
        if truthy (dict_get "error" e_response VNone)
        then (Ret VNone, tr1)
        else (Raise AssertionError, tr1)
    | Raise e => (Raise e, tr1)
    end.

(** A computation of the other handlers, run for its outcome and its
    effects; it is used for [remove_reaction], which reads neither the
    store nor the trace. *)
Definition run_core {A : Type} (m : M A) : T A :=
  fun tr =>
    let r := m {| heap := ∅; trace := [] |} in
    (fst r, tr ++ map Core (trace (snd r))).

(** [text.replace(mention, "").strip()], where [mention] is an f-string and
    so always a [str]: the result is never used, so all that matters is
    whether [text] has the method. *)
Definition replace_strip (text : pyval) : outcome unit :=
  match text with
  | VStr _ => Ret tt
  | _ => Raise (AttributeError "replace")
  end.

Definition handle_mentions (svc : mention_services) (body : dict) : T pyval :=
  fun tr =>
    let tr0 := tr ++ [Core (Log ("Received app mention: " +:+ py_str (core svc) (VDict body)))] in
    let text := dict_get "text" body (VStr "") in
    match dict_get "event" body (VDict []) with
    | VDict event =>
        let channel := dict_get "channel" event (VStr "") in
        let timestamp := dict_get "ts" event (VStr "") in
        let emoji := VStr "eyes" in
        match add_reaction svc channel timestamp emoji tr0 with
        | (Raise e, tr1) => (Raise e, tr1)
        | (Ret _, tr1) =>
            match replace_strip text with
            | Raise e => (Raise e, tr1)
            | Ret _ =>
                let response := VStr "Yoo" in
                let tr2 := tr1 ++ [Core (ChatPostMessage channel response VNone)] in
                match chat_postMessage (core svc) channel response VNone with
                | Raise e => (Raise e, tr2)
                | Ret _ =>
                    match run_core (remove_reaction (core svc) channel timestamp emoji) tr2 with
                    | (Raise e, tr3) => (Raise e, tr3)
                    | (Ret _, tr3) => (Ret VNone, tr3)
                    end
                end
            end
        end
    | _ => (Raise (AttributeError "get"), tr0)
    end.

End Mentions.

Module EventsRoute.

Import BeebrainApp.

(** The [POST /events] route; [data] is [request.json], any JSON value.
    The reply is the response and, when the view gives one, the status code
    that goes with it. *)
Definition slack_events (svc : services) (data : pyval) : M (pyval * option Z) :=
  if negb (truthy data) then
    mret (jsonify [("error", VStr "No data received")], Some 400)
  else
    emit (HandlerHandle data) ;;
    response ← handler_handle svc data ;
    mret (response, None).

End EventsRoute.

(** ** opensearch_experiment/main.py *)

Module Ingestion.

Definition INDEX_NAME : string := "my_index".

(** What the script does to the outside: an index request, a line printed. *)
Inductive ingest_event : Type :=
  | Index (index : string) (body : dict)
  | Print (text : string).

Definition is_newline (c : ascii) : bool := (nat_of_ascii c =? 10)%nat.

(** Reading in text mode: a carriage return, alone or before a line feed,
    reads as a line feed. *)
Fixpoint universal_newlines (s : string) : string :=
  match s with
  | EmptyString => ""
  | String c s' =>
      if (nat_of_ascii c =? 13)%nat then
        match s' with
        | String c' s'' =>
            if is_newline c' then String c' (universal_newlines s'')
            else String (ascii_of_nat 10) (universal_newlines s')
        | EmptyString => nl
        end
      else String c (universal_newlines s')
  end.

(** [readlines()]: the text cut after each line feed; every line keeps its
    line feed. *)
Fixpoint readlines (s : string) : list string :=
  match s with
  | EmptyString => []
  | String c s' =>
      if is_newline c then String c "" :: readlines s'
      else
        match readlines s' with
        | [] => [String c ""]
        | line :: lines => String c line :: lines
        end
  end.

(** [print("Ingested: ", line)] *)
Definition ingested (line : string) : string :=
  "Ingested: " +:+ " " +:+ line +:+ nl.

(** The [for] loop over the lines.  The search engine answers the [sent]-th
    request of the run ([sent] requests came before it): its answer may
    change from one request to the next, for equal documents too. *)
Fixpoint ingest_lines (index_document : nat -> string -> dict -> outcome dict)
    (sent : nat) (lines : list string) : outcome unit * list ingest_event :=
  match lines with
  | [] => (Ret tt, [])
  | line :: lines' =>
      let body := [("stuff", VStr line)] in
      match index_document sent INDEX_NAME body with
      | Raise e => (Raise e, [Index INDEX_NAME body])
      | Ret _ =>
          let r := ingest_lines index_document (S sent) lines' in
          (fst r, Index INDEX_NAME body :: Print (ingested line) :: snd r)
      end
  end.

(** [file] is the text of [text.txt], or [None] when there is no such
    file. *)
Definition ingestData (index_document : nat -> string -> dict -> outcome dict)
    (file : option string) : outcome unit * list ingest_event :=
  match file with
  | None => (Raise (OtherError "FileNotFoundError"), [])
  | Some text => ingest_lines index_document 0 (readlines (universal_newlines text))
  end.

End Ingestion.

(** * Properties *)

(** ** Dictionaries *)

Section Dictionaries.

Lemma dict_lookup_set_eq (k : string) (v : pyval) (d : dict) :
  dict_lookup k (dict_set k v d) = Some v.
Proof.
  induction d as [|[k' v'] d IH]; simpl.
  - by rewrite String.eqb_refl.
  - destruct (String.eqb k k') eqn:E; simpl; rewrite E; [done | exact IH].
Qed.

Lemma dict_has_lookup (k : string) (d : dict) :
  dict_has k d = true <-> exists v, dict_lookup k d = Some v.
Proof.
  unfold dict_has. destruct (dict_lookup k d); split; eauto; try done.
  intros [v Hv]. discriminate.
Qed.

(** [obj[k1][k2]...]: following keys through nested dicts. *)
Fixpoint path (keys : list string) (v : pyval) : option pyval :=
  match keys with
  | [] => Some v
  | k :: keys' =>
      match v with
      | VDict d =>
          match dict_lookup k d with
          | Some v' => path keys' v'
          | None => None
          end
      | _ => None
      end
  end.

End Dictionaries.

(** ** The tool-schema generator *)

Section ToolSchema.

Import AiToolTag.

(** A JSON string literal. *)
Definition quoted (s : string) : string := dq +:+ s +:+ dq.

(** A text from its lines. *)
Definition unlines (ls : list string) : string :=
  match ls with
  | [] => ""
  | l :: ls' => fold_left (fun acc x => acc +:+ nl +:+ x) ls' l
  end.

(** What [print(generate_json_description(add))] shows. *)
Definition add_description_text : string :=
  unlines [
    "{";
    "  " +:+ quoted "type" +:+ ": " +:+ quoted "function" +:+ ",";
    "  " +:+ quoted "function" +:+ ": {";
    "    " +:+ quoted "name" +:+ ": " +:+ quoted "add" +:+ ",";
    "    " +:+ quoted "description" +:+ ": "
           +:+ quoted "Adds two numbers and returns the result" +:+ ",";
    "    " +:+ quoted "parameters" +:+ ": {";
    "      " +:+ quoted "type" +:+ ": " +:+ quoted "object" +:+ ",";
    "      " +:+ quoted "properties" +:+ ": {";
    "        " +:+ quoted "a" +:+ ": " +:+ quoted "<class 'int'>" +:+ ",";
    "        " +:+ quoted "b" +:+ ": " +:+ quoted "<class 'int'>";
    "      }";
    "    },";
    "    " +:+ quoted "input_params" +:+ ": [";
    "      {";
    "        " +:+ quoted "name" +:+ ": " +:+ quoted "a" +:+ ",";
    "        " +:+ quoted "type" +:+ ": " +:+ quoted "<class 'int'>";
    "      },";
    "      {";
    "        " +:+ quoted "name" +:+ ": " +:+ quoted "b" +:+ ",";
    "        " +:+ quoted "type" +:+ ": " +:+ quoted "<class 'int'>";
    "      }";
    "    ],";
    "    " +:+ quoted "output_type" +:+ ": " +:+ quoted "<class 'int'>";
    "  }";
    "}"
  ].

(** The [description] object the generator builds for [add]. *)
Definition add_descriptor : pyval :=
  descriptor add "Adds two numbers and returns the result".

(** C8 (as amended): for the tagged function [add(a: int, b: int) -> int]
    the generator returns the 2-space-indented JSON text of a descriptor
    whose [function.name] is "add", whose [function.description] is the
    tag's text, whose [function.parameters.properties] is
    [{"a": "<class 'int'>", "b": "<class 'int'>"}] and whose
    [function.output_type] is the text of the integer class: [parameters]
    and [output_type] sit inside the [function] object, beside [name] and
    [description]. *)
Theorem generate_json_description_add :
  generate_json_description add = Ret (json_dumps 2 add_descriptor)
  /\ path ["function"; "name"] add_descriptor = Some (VStr "add")
  /\ path ["function"; "description"] add_descriptor
     = Some (VStr "Adds two numbers and returns the result")
  /\ path ["function"; "parameters"; "properties"] add_descriptor
     = Some (VDict [("a", VStr "<class 'int'>"); ("b", VStr "<class 'int'>")])
  /\ path ["function"; "output_type"] add_descriptor = Some (VStr (hint_str (Class "int")))
  /\ json_dumps 2 add_descriptor = add_description_text.
Proof.
  repeat split; vm_compute; reflexivity.
Qed.

(** C8, refuted as stated: read at the paths the claim writes, without the
    [function] prefix, the descriptor of [add] has no [parameters] and no
    [output_type]. *)
Lemma add_descriptor_top_level :
  ~ (generate_json_description add = Ret (json_dumps 2 add_descriptor)
     /\ path ["function"; "name"] add_descriptor = Some (VStr "add")
     /\ path ["function"; "description"] add_descriptor
        = Some (VStr "Adds two numbers and returns the result")
     /\ path ["parameters"; "properties"] add_descriptor
        = Some (VDict [("a", VStr "<class 'int'>"); ("b", VStr "<class 'int'>")])
     /\ exists t, path ["output_type"] add_descriptor = Some t).
Proof. intros (_ & _ & _ & H & _). discriminate. Qed.

(** The top-level keys of the descriptor are [type] and [function] only. *)
Example add_descriptor_keys :
  path ["parameters"] add_descriptor = None
  /\ path ["output_type"] add_descriptor = None
  /\ path ["input_params"] add_descriptor = None
  /\ path ["type"] add_descriptor = Some (VStr "function").
Proof. repeat split. Qed.

(** C9: a function without the description attribute is rejected with a
    [ValueError] whose message carries the function's name; no descriptor
    text is produced for it. *)
Theorem generate_json_description_untagged (func : pyfunc) :
  aitool_description func = None ->
  generate_json_description func
  = Raise (ValueError ("Function " +:+ func_name func +:+ " is not tagged with @AITool"))
  /\ forall text : string, generate_json_description func <> Ret text.
Proof.
  intros Hnone. unfold generate_json_description. rewrite Hnone.
  split; [reflexivity | intros text; discriminate].
Qed.

(** The untagged [multiply] of the repository's other scripts. *)
Definition multiply : pyfunc :=
  {| func_name := "multiply";
     parameters := [("a", Some (Class "int")); ("b", Some (Class "int"))];
     return_annotation := Some (Class "int");
     aitool_description := None |}.

Lemma generate_json_description_untagged_witness :
  generate_json_description multiply
  = Raise (ValueError "Function multiply is not tagged with @AITool")
  /\ forall text : string, generate_json_description multiply <> Ret text.
Proof.
  apply (generate_json_description_untagged multiply). reflexivity.
Defined.

(** The serialiser on scalars and on empty and nested containers. *)
Example json_dumps_nested :
  json_dumps 2 (VDict [("a", VList []); ("b", VDict []);
                       ("d", VList [VInt 1; VNone; VBool true; VInt (-7)])])
  = unlines [
      "{";
      "  " +:+ quoted "a" +:+ ": [],";
      "  " +:+ quoted "b" +:+ ": {},";
      "  " +:+ quoted "d" +:+ ": [";
      "    1,";
      "    null,";
      "    true,";
      "    -7";
      "  ]";
      "}"
    ].
Proof. vm_compute. reflexivity. Qed.

(** Characters outside the printable ASCII range are written as escapes. *)
Example encode_basestring_ascii_escapes :
  encode_basestring_ascii
    (String (ascii_of_nat 9) (String (ascii_of_nat 127) (String (ascii_of_nat 233) "\")))
  = quoted "\t\u007f\u00e9\\".
Proof. vm_compute. reflexivity. Qed.

(** The second example function: parameters keep their declaration order. *)
Example greet_properties :
  path ["function"; "parameters"; "properties"]
       (descriptor greet "Greets a person with an optional custom greeting")
  = Some (VDict [("name", VStr "<class 'str'>"); ("greeting", VStr "<class 'str'>")]).
Proof. reflexivity. Qed.

(** Tagging is what makes the generator accept a function. *)
Lemma generate_json_description_tagged (description : string) (func : pyfunc) :
  generate_json_description (aitool description func)
  = Ret (json_dumps 2 (descriptor (aitool description func) description)).
Proof. reflexivity. Qed.

End ToolSchema.

(** ** The streaming loop *)

Section StreamLoop.

Import LlmInteract.

Lemma append_cons (c : ascii) (s t : string) :
  String c s +:+ t = String c (s +:+ t).
Proof. reflexivity. Qed.

Lemma append_empty_r (s : string) : s +:+ "" = s.
Proof. induction s as [|c s IH]; [done | by rewrite append_cons, IH]. Qed.

Lemma append_assoc (s t u : string) : (s +:+ t) +:+ u = s +:+ (t +:+ u).
Proof. induction s as [|c s IH]; [done | by rewrite !append_cons, IH]. Qed.

(** Running the loop body over lines none of which ends the loop. *)
Fixpoint advance (st : locals) (lines : list line) : option locals :=
  match lines with
  | [] => Some st
  | ln :: rest =>
      match frame st ln with
      | Next st' => advance st' rest
      | _ => None
      end
  end.

(** A [done: false] frame carrying the text [content], and no error. *)
Definition fragment (body : dict) (content : string) : Prop :=
  dict_lookup "error" body = None
  /\ dict_lookup "done" body = Some (VBool false)
  /\ exists m, dict_lookup "message" body = Some (VDict m)
               /\ dict_get "content" m (VStr "") = VStr content.

(** A frame whose [done] is true, and no error. *)
Definition final (body : dict) : Prop :=
  dict_lookup "error" body = None
  /\ truthy (dict_get "done" body (VBool false)) = true.

(** The fragments joined in arrival order. *)
Definition joined (contents : list string) : string :=
  fold_right String.append "" contents.

Lemma stream_loop_advance (st st' : locals) (pre rest : list line) :
  advance st pre = Some st' ->
  stream_loop st (pre ++ rest) = stream_loop st' rest.
Proof.
  revert st. induction pre as [|ln pre IH]; intros st H; simpl in *.
  - by injection H as ->.
  - destruct (frame st ln); try discriminate. by apply IH.
Qed.

Lemma advance_app (st st' st'' : locals) (pre post : list line) :
  advance st pre = Some st' ->
  advance st' post = Some st'' ->
  advance st (pre ++ post) = Some st''.
Proof.
  revert st. induction pre as [|ln pre IH]; intros st H H'; simpl in *.
  - by injection H as ->.
  - destruct (frame st ln); try discriminate. by apply IH.
Qed.

Lemma final_not_False (body : dict) :
  truthy (dict_get "done" body (VBool false)) = true ->
  is_False (dict_lookup "done" body) = false.
Proof.
  unfold dict_get. destruct (dict_lookup "done" body) as [[| [] | | | |]|]; done.
Qed.

Lemma frame_error (st : locals) (body : dict) (err : pyval) :
  dict_lookup "error" body = Some err ->
  frame st (Json body) = Throw (Exception err).
Proof. intros H. simpl. by rewrite H. Qed.

Lemma frame_fragment (st : locals) (body : dict) (content : string) :
  fragment body content ->
  exists m, frame st (Json body)
            = Next {| output := output st +:+ content; message := Some (VDict m) |}.
Proof.
  intros (Herr & Hdone & m & Hmsg & Hcontent). exists m.
  unfold frame, accumulate, finish. rewrite Herr, Hdone. simpl.
  unfold dict_get at 1. rewrite Hmsg, Hcontent.
  unfold dict_get. by rewrite Hdone.
Qed.

Lemma frame_final_bound (st : locals) (body m : dict) :
  final body ->
  message st = Some (VDict m) ->
  frame st (Json body) = Return (VStr (output st)).
Proof.
  intros [Herr Hdone] Hm. unfold frame, accumulate, finish.
  rewrite Herr, (final_not_False _ Hdone), Hdone, Hm.
  by rewrite dict_lookup_set_eq.
Qed.

Lemma frame_final_unbound (st : locals) (body : dict) :
  final body ->
  message st = None ->
  frame st (Json body) = Throw (UnboundLocalError "message").
Proof.
  intros [Herr Hdone] Hm. unfold frame, accumulate, finish.
  by rewrite Herr, (final_not_False _ Hdone), Hdone, Hm.
Qed.

(** A final frame always ends the loop, by a return or by an exception. *)
Lemma frame_final_ends (st st' : locals) (body : dict) :
  final body -> frame st (Json body) <> Next st'.
Proof.
  intros [Herr Hdone]. unfold frame, accumulate, finish.
  rewrite Herr, (final_not_False _ Hdone), Hdone.
  destruct (message st) as [[| | | | |m]|]; try discriminate.
  by rewrite dict_lookup_set_eq.
Qed.

(** Lines that the loop runs through hold no final frame. *)
Lemma advance_no_final (st : locals) (lines : list line) :
  advance st lines <> None ->
  Forall (fun ln => forall body, ln = Json body -> ~ final body) lines.
Proof.
  revert st. induction lines as [|ln lines IH]; intros st Hadv; [constructor|].
  cbn [advance] in Hadv. destruct (frame st ln) as [st1| |] eqn:Hfr; try done.
  constructor; [|by apply (IH st1)].
  intros body -> Hfin. exact (frame_final_ends _ _ _ Hfin Hfr).
Qed.

(** A pass that returns does so at a frame with a true [done], with
    [message] bound, and returns the text accumulated so far. *)
Lemma frame_return (st : locals) (ln : line) (v : pyval) :
  frame st ln = Return v ->
  exists body m, ln = Json body /\ final body
                 /\ message st = Some (VDict m) /\ v = VStr (output st).
Proof.
  destruct ln as [body|]; [|discriminate]. simpl.
  destruct (dict_lookup "error" body) eqn:Herr; [discriminate|].
  unfold accumulate, finish.
  destruct (is_False (dict_lookup "done" body)) eqn:HF.
  - assert (dict_lookup "done" body = Some (VBool false)) as Hd.
    { destruct (dict_lookup "done" body) as [[| [] | | | |]|]; done. }
    destruct (dict_get "message" body (VStr "")) as [| | | | |m]; try discriminate.
    destruct (dict_get "content" m (VStr "")); try discriminate.
    unfold dict_get. rewrite Hd. discriminate.
  - destruct (truthy (dict_get "done" body (VBool false))) eqn:Ht; [|discriminate].
    destruct (message st) as [[| | | | |m]|] eqn:Hm; try discriminate.
    rewrite dict_lookup_set_eq. intros [= <-]. by exists body, m.
Qed.

(** A pass that goes on either leaves the locals alone or is a
    [done: false] frame that binds [message]. *)
Lemma frame_next (st st' : locals) (ln : line) :
  frame st ln = Next st' ->
  st' = st
  \/ exists body m, ln = Json body
                    /\ dict_lookup "done" body = Some (VBool false)
                    /\ message st' = Some (VDict m).
Proof.
  destruct ln as [body|]; [|discriminate]. simpl.
  destruct (dict_lookup "error" body) eqn:Herr; [discriminate|].
  unfold accumulate, finish.
  destruct (is_False (dict_lookup "done" body)) eqn:HF.
  - assert (dict_lookup "done" body = Some (VBool false)) as Hd.
    { destruct (dict_lookup "done" body) as [[| [] | | | |]|]; done. }
    destruct (dict_get "message" body (VStr "")) as [| | | | |m]; try discriminate.
    destruct (dict_get "content" m (VStr "")); try discriminate.
    unfold dict_get. rewrite Hd. simpl. intros [= <-]. right. by exists body, m.
  - destruct (truthy (dict_get "done" body (VBool false))).
    + destruct (message st) as [[| | | | |m]|]; try discriminate.
      by rewrite dict_lookup_set_eq.
    + intros [= <-]. by left.
Qed.

(** Fragments are accumulated in order, and bind [message]. *)
Lemma advance_fragments (bodies : list dict) (contents : list string) :
  Forall2 fragment bodies contents ->
  forall st, exists st',
    advance st (map Json bodies) = Some st'
    /\ output st' = output st +:+ joined contents
    /\ (bodies = [] -> st' = st)
    /\ (bodies <> [] -> exists m, message st' = Some (VDict m)).
Proof.
  induction 1 as [|body content bodies contents Hf _ IH]; intros st.
  - exists st. unfold joined. simpl. by rewrite append_empty_r.
  - change (joined (content :: contents)) with (content +:+ joined contents).
    cbn [map advance].
    destruct (frame_fragment st body content Hf) as [m ->].
    destruct bodies as [|body' bodies].
    + destruct (IH {| output := output st +:+ content; message := Some (VDict m) |})
        as (st' & Hadv & Hout & Hnil & _).
      cbn [output] in Hout. exists st'. rewrite Hadv, Hout, append_assoc.
      repeat split; [done|]. intros _. rewrite (Hnil eq_refl). by exists m.
    + destruct (IH {| output := output st +:+ content; message := Some (VDict m) |})
        as (st' & Hadv & Hout & _ & Hcons).
      cbn [output] in Hout. exists st'. rewrite Hadv, Hout, append_assoc.
      repeat split; [done|]. intros _. by apply Hcons.
Qed.

(** One or more fragments and then a final frame: the loop returns the
    fragments joined, whatever the final frame's own content, and takes
    nothing more from the stream. *)
Lemma stream_loop_accumulates (bodies : list dict) (contents : list string)
    (last : dict) (rest : list line) :
  Forall2 fragment bodies contents ->
  bodies <> [] ->
  final last ->
  stream_loop initial (map Json bodies ++ Json last :: rest)
  = (Ret (VStr (joined contents)), rest).
Proof.
  intros Hf Hne Hlast.
  destruct (advance_fragments bodies contents Hf initial) as (st & Hadv & Hout & _ & Hm).
  destruct (Hm Hne) as [m Hmsg].
  rewrite (stream_loop_advance _ _ _ _ Hadv). cbn [stream_loop].
  by rewrite (frame_final_bound st last m Hlast Hmsg), Hout.
Qed.

(** The loop returns either the text at a final frame or, when the stream
    runs out, [None]. *)
Lemma stream_loop_returns (st : locals) (lines rest : list line) (v : pyval) :
  stream_loop st lines = (Ret v, rest) ->
  (v = VNone /\ rest = [] /\ advance st lines <> None)
  \/ exists pre fin st',
       lines = pre ++ Json fin :: rest /\ advance st pre = Some st'
       /\ final fin /\ is_Some (message st') /\ v = VStr (output st').
Proof.
  revert st. induction lines as [|ln lines IH]; intros st; simpl.
  - intros [= <- <-]. by left.
  - destruct (frame st ln) as [st1|v1|e] eqn:Hfr.
    + intros H. destruct (IH _ H) as [(-> & -> & Hadv)|(pre & fin & st' & -> & Hadv & Hfin & Hm & ->)].
      * by left.
      * right. exists (ln :: pre), fin, st'. simpl. by rewrite Hfr.
    + intros [= <- <-]. right.
      destruct (frame_return _ _ _ Hfr) as (body & m & -> & Hfin & Hm & ->).
      exists [], body, st. simpl. rewrite Hm. by eauto.
    + discriminate.
Qed.

(** The text one line of the stream adds to the buffer: the content of a
    [done: false] frame, nothing for any other line. *)
Definition fragment_text (ln : line) : string :=
  match ln with
  | Json body =>
      if is_False (dict_lookup "done" body) then
        match dict_get "message" body (VStr "") with
        | VDict m =>
            match dict_get "content" m (VStr "") with
            | VStr content => content
            | _ => ""
            end
        | _ => ""
        end
      else ""
  | NotJson => ""
  end.

Lemma frame_output (st st' : locals) (ln : line) :
  frame st ln = Next st' -> output st' = output st +:+ fragment_text ln.
Proof.
  destruct ln as [body|]; [|discriminate]. unfold frame, accumulate, finish, fragment_text.
  destruct (dict_lookup "error" body); [discriminate|].
  destruct (is_False (dict_lookup "done" body)).
  - destruct (dict_get "message" body (VStr "")) as [| | | | |m]; try discriminate.
    destruct (dict_get "content" m (VStr "")) as [| | |content| |]; try discriminate.
    destruct (truthy (dict_get "done" body (VBool false))).
    + cbn [message]. by rewrite dict_lookup_set_eq.
    + by intros [= <-].
  - destruct (truthy (dict_get "done" body (VBool false))).
    + destruct (message st) as [[| | | | |m]|]; try discriminate.
      by rewrite dict_lookup_set_eq.
    + intros [= <-]. by rewrite append_empty_r.
Qed.

(** The buffer after a run of lines: what it held, then the contents of the
    [done: false] frames in arrival order. *)
Lemma advance_joined (st st' : locals) (lines : list line) :
  advance st lines = Some st' ->
  output st' = output st +:+ joined (map fragment_text lines).
Proof.
  revert st. induction lines as [|ln lines IH]; intros st Hadv.
  - injection Hadv as <-. unfold joined. cbn. by rewrite append_empty_r.
  - cbn [advance] in Hadv. destruct (frame st ln) as [st1| |] eqn:Hfr; try discriminate.
    rewrite (IH _ Hadv), (frame_output _ _ _ Hfr), append_assoc. reflexivity.
Qed.

End StreamLoop.

(** ** The chat client *)

Section ChatClient.

Import LlmInteract.

Variable svc : services.

(** The world after [chat] has run on a list holding [msgs]: the system
    message is in the caller's list, the log line and the request are in the
    trace.  Nothing else changes, whatever the server answers. *)
Definition after_chat (messages : loc) (msgs : list pyval) (w : world) : world :=
  {| heap := <[messages := system_message :: msgs]> (heap w);
     trace := trace w ++ [Log "Invoking LLM chat enpoint ...";
                          RequestsPost endpoint (request_json (system_message :: msgs)) true] |}.

(** What [chat] makes of the server's answer to the request. *)
Definition answer (sent : list pyval) : outcome pyval :=
  match requests_post svc endpoint (request_json sent) true with
  | Raise e => Raise e
  | Ret r =>
      if (400 <=? status_code r) && (status_code r <? 600)
      then Raise (HTTPError (status_code r))
      else fst (stream_loop initial (iter_lines r))
  end.

Lemma chat_run (messages : loc) (msgs : list pyval) (w : world) :
  heap w !! messages = Some msgs ->
  chat svc messages w
  = (answer (system_message :: msgs), after_chat messages msgs w).
Proof.
  intros Hm. unfold chat, answer, after_chat, mbind, M_bind, list_insert0,
    logging_info, emit, read_list, lift, raise_for_status, throw, mret, M_ret.
  rewrite Hm. simpl. rewrite lookup_insert_eq. simpl. rewrite <- app_assoc. simpl.
  destruct (requests_post svc endpoint _ true) as [r|e]; [|reflexivity].
  destruct ((400 <=? status_code r) && (status_code r <? 600)); reflexivity.
Qed.

(** The server accepts the request for the list [messages] and streams
    [lines]. *)
Definition streams (messages : loc) (w : world) (lines : list line) : Prop :=
  exists msgs r,
    heap w !! messages = Some msgs
    /\ requests_post svc endpoint (request_json (system_message :: msgs)) true = Ret r
    /\ (status_code r < 400 \/ 600 <= status_code r)
    /\ iter_lines r = lines.

Lemma chat_streams (messages : loc) (w : world) (lines : list line) :
  streams messages w lines ->
  fst (chat svc messages w) = fst (stream_loop initial lines).
Proof.
  intros (msgs & r & Hm & Hr & Hs & <-). rewrite (chat_run _ _ _ Hm).
  unfold answer. rewrite Hr. simpl.
  destruct (Z.leb_spec 400 (status_code r)), (Z.ltb_spec (status_code r) 600);
    simpl; try reflexivity; lia.
Qed.

(** When [chat] returns, the server had accepted the request and the value
    comes out of the streaming loop. *)
Lemma chat_returns_inv (messages : loc) (w w' : world) (v : pyval) :
  chat svc messages w = (Ret v, w') ->
  exists lines, streams messages w lines /\ fst (stream_loop initial lines) = Ret v.
Proof.
  destruct (heap w !! messages) as [msgs|] eqn:Hm.
  - rewrite (chat_run _ _ _ Hm). unfold answer. intros [= Hv _].
    destruct (requests_post svc endpoint _ true) as [r|e] eqn:Hr; [|discriminate].
    destruct (Z.leb_spec 400 (status_code r)), (Z.ltb_spec (status_code r) 600);
      simpl in Hv; try discriminate;
      (exists (iter_lines r); split; [exists msgs, r; repeat split; auto; lia | done]).
  - unfold chat, mbind, M_bind, list_insert0. rewrite Hm. discriminate.
Qed.

(** A Chat Message record of the assistant: a dict with [role] "assistant"
    and a [content] field. *)
Definition is_chat_message (v : pyval) : Prop :=
  exists d content,
    v = VDict d
    /\ dict_lookup "role" d = Some (VStr "assistant")
    /\ dict_lookup "content" d = Some content.

(** C1 (as amended): whenever [chat] returns, the value is bare text and
    never a role-tagged Chat Message record.  When the loop got to a frame
    with a true [done], the value is the string made of the contents of the
    [done: false] frames before it, joined in arrival order; when the stream
    ran out with no such frame, the value is [None]. *)
Theorem chat_returns_text (messages : loc) (w w' : world) (v : pyval) :
  chat svc messages w = (Ret v, w') ->
  ~ is_chat_message v
  /\ exists lines,
       streams messages w lines
       /\ ((exists pre fin rest,
              lines = pre ++ Json fin :: rest
              /\ advance initial pre <> None
              /\ final fin
              /\ v = VStr (joined (map fragment_text pre)))
           \/ (v = VNone
               /\ advance initial lines <> None
               /\ Forall (fun ln => forall body, ln = Json body -> ~ final body) lines)).
Proof.
  intros H. destruct (chat_returns_inv _ _ _ _ H) as (lines & Hs & Hv).
  destruct (stream_loop initial lines) as [o rest] eqn:Hloop. simpl in Hv. subst o.
  destruct (stream_loop_returns _ _ _ _ Hloop)
    as [(-> & _ & Hadv)|(pre & fin & st' & -> & Hadv & Hfin & _ & ->)].
  - split; [by intros (d & content & ? & _)|].
    exists lines. split; [exact Hs|]. right.
    split; [done|]. split; [exact Hadv|]. by apply (advance_no_final initial).
  - split; [by intros (d & content & ? & _)|].
    exists (pre ++ Json fin :: rest). split; [exact Hs|]. left.
    exists pre, fin, rest. split; [done|]. split; [by rewrite Hadv|]. split; [exact Hfin|].
    by rewrite (advance_joined _ _ _ Hadv).
Qed.

(** X5: a run of one or more fragments closed by a final frame makes [chat]
    return the fragments joined in arrival order, whatever the final frame's
    own content and whatever follows it. *)
Lemma chat_accumulates (messages : loc) (w : world) (bodies : list dict)
    (contents : list string) (last : dict) (rest : list line) :
  streams messages w (map Json bodies ++ Json last :: rest) ->
  Forall2 fragment bodies contents ->
  bodies <> [] ->
  final last ->
  fst (chat svc messages w) = Ret (VStr (joined contents)).
Proof.
  intros Hs Hf Hne Hlast. rewrite (chat_streams _ _ _ Hs).
  by rewrite (stream_loop_accumulates _ _ _ _ Hf Hne Hlast).
Qed.

(** C3: when the loop reaches a frame that carries an [error] field, [chat]
    raises an exception holding the error value, and the frames after it are
    left in the stream, untouched. *)
Theorem chat_error_frame (messages : loc) (w : world) (pre rest : list line)
    (st : locals) (body : dict) (err : pyval) :
  streams messages w (pre ++ Json body :: rest) ->
  advance initial pre = Some st ->
  dict_lookup "error" body = Some err ->
  fst (chat svc messages w) = Raise (Exception err)
  /\ stream_loop initial (pre ++ Json body :: rest) = (Raise (Exception err), rest).
Proof.
  intros Hs Hadv Herr.
  assert (stream_loop initial (pre ++ Json body :: rest) = (Raise (Exception err), rest)) as Hloop.
  { rewrite (stream_loop_advance _ _ _ _ Hadv). cbn [stream_loop].
    by rewrite (frame_error _ _ _ Herr). }
  split; [|exact Hloop]. by rewrite (chat_streams _ _ _ Hs), Hloop.
Qed.

(** C4: [chat] puts the system message at index 0 of the very list object
    it was given, before the request is sent: the request carries the
    system message followed by the original messages, and afterwards the
    caller's list holds the same, whatever the server answers.  No other
    list changes and none is created. *)
Theorem chat_inserts_system_message (messages : loc) (msgs : list pyval) (w : world) :
  heap w !! messages = Some msgs ->
  heap (snd (chat svc messages w)) !! messages = Some (system_message :: msgs)
  /\ heap (snd (chat svc messages w)) = <[messages := system_message :: msgs]> (heap w)
  /\ trace (snd (chat svc messages w))
     = trace w ++ [Log "Invoking LLM chat enpoint ...";
                   RequestsPost endpoint (request_json (system_message :: msgs)) true]
  /\ path ["messages"] (VDict (request_json (system_message :: msgs)))
     = Some (VList (system_message :: msgs)).
Proof.
  intros Hm. rewrite (chat_run _ _ _ Hm). simpl.
  by rewrite lookup_insert_eq.
Qed.

(** Fragments must have been seen for [message] to be bound. *)
Lemma advance_binds (st st' : locals) (pre : list line) :
  advance st pre = Some st' ->
  message st = None ->
  is_Some (message st') ->
  exists p1 body p2,
    pre = p1 ++ Json body :: p2 /\ dict_lookup "done" body = Some (VBool false).
Proof.
  revert st. induction pre as [|ln pre IH]; intros st Hadv Hnone Hsome.
  - injection Hadv as <-. rewrite Hnone in Hsome. by destruct Hsome.
  - cbn [advance] in Hadv. destruct (frame st ln) as [st1| |] eqn:Hfr; try discriminate.
    destruct (frame_next _ _ _ Hfr) as [->|(body & m & -> & Hd & _)].
    + destruct (IH _ Hadv Hnone Hsome) as (p1 & body & p2 & -> & Hd).
      by exists (ln :: p1), body, p2.
    + by exists [], body, pre.
Qed.

(** C10 (as amended): when the first frame of the stream already has a true
    [done] and no [error] key, [chat] raises [UnboundLocalError] for
    [message] instead of returning the empty text; and whenever [chat]
    returns, either the stream held no final
    frame at all (it ran out, and the value is [None]), or a [done: false]
    frame was processed before the final frame that made it return. *)
Theorem chat_done_first (messages : loc) (w : world) (lines : list line) :
  streams messages w lines ->
  (forall body rest,
     lines = Json body :: rest -> final body ->
     fst (chat svc messages w) = Raise (UnboundLocalError "message"))
  /\ (forall v,
        fst (chat svc messages w) = Ret v ->
        (v = VNone
         /\ Forall (fun ln => forall body, ln = Json body -> ~ final body) lines)
        \/ exists pre body post fin rest,
             lines = pre ++ Json body :: post ++ Json fin :: rest
             /\ dict_lookup "done" body = Some (VBool false)
             /\ final fin
             /\ exists s, v = VStr s).
Proof.
  intros Hs. rewrite (chat_streams _ _ _ Hs). split.
  - intros body rest -> Hfin. cbn [stream_loop].
    by rewrite (frame_final_unbound initial body Hfin eq_refl).
  - intros v Hret.
    destruct (stream_loop initial lines) as [o rest] eqn:Hloop. simpl in Hret. subst o.
    destruct (stream_loop_returns _ _ _ _ Hloop)
      as [(-> & _ & Hadv)|(pre & fin & st' & -> & Hadv & Hfin & Hm & ->)].
    + left. split; [done|]. by apply (advance_no_final initial).
    + right. destruct (advance_binds _ _ _ Hadv eq_refl Hm) as (p1 & body & p2 & -> & Hd).
      exists p1, body, p2, fin, rest. rewrite <- app_assoc. eauto.
Qed.

End ChatClient.

(** ** Concrete runs of the chat client *)

Section ChatRuns.

Import LlmInteract.

(** A streamed frame as the Ollama endpoint sends it. *)
Definition ollama_frame (done : bool) (content : string) : line :=
  Json [("model", VStr model);
        ("message", VDict [("role", VStr "assistant"); ("content", VStr content)]);
        ("done", VBool done)].

Definition error_frame (text : string) : line :=
  Json [("error", VStr text)].

(** The three frames of the accumulation example. *)
Definition hello_stream : list line :=
  [ollama_frame false "Hel"; ollama_frame false "lo"; ollama_frame true ""].

(** Test doubles: an LLM endpoint that answers [status] and streams
    [lines]; a Slack workspace whose thread holds one message. *)
Definition double (status : Z) (lines : list line) : services :=
  {| conversations_replies := fun _ _ _ _ =>
       Ret [("ok", VBool true);
            ("messages", VList [VDict [("user", VStr "U1"); ("text", VStr "hi")]])];
     requests_post := fun _ _ _ => Ret {| status_code := status; iter_lines := lines |};
     chat_postMessage := fun _ _ _ => Ret [("ok", VBool true)];
     reactions_remove := fun _ _ _ => Ret [("ok", VBool true)];
     handler_handle := fun _ => mret VNone;
     container_repr := fun _ => "[...]" |}.

Definition user_hi : pyval := VDict [("role", VStr "user"); ("content", VStr "hi")].

(** A caller holding the history [[user_hi]] in the list object 1. *)
Definition caller : world :=
  {| heap := {[ 1%positive := [user_hi] ]}; trace := [] |}.

Example hello_stream_loop :
  stream_loop initial hello_stream = (Ret (VStr "Hello"), []).
Proof. reflexivity. Qed.

(** Frames after the final one stay in the stream. *)
Example hello_stream_loop_rest :
  stream_loop initial (hello_stream ++ [ollama_frame false "!"])
  = (Ret (VStr "Hello"), [ollama_frame false "!"]).
Proof. reflexivity. Qed.

(** A stream that ends without a final frame: the function falls off its
    end. *)
Example unfinished_stream_loop :
  stream_loop initial [ollama_frame false "Hel"] = (Ret VNone, []).
Proof. reflexivity. Qed.

(** A refused request raises before any line is read. *)
Example chat_http_error :
  fst (chat (double 500 hello_stream) 1%positive caller) = Raise (HTTPError 500).
Proof. vm_compute. reflexivity. Qed.

Lemma double_streams (lines : list line) :
  streams (double 200 lines) 1%positive caller lines.
Proof.
  exists [user_hi], {| status_code := 200; iter_lines := lines |}.
  split; [reflexivity|]. split; [reflexivity|]. split; [|reflexivity].
  left. simpl. lia.
Qed.

(** C1, refuted as stated: on the accumulation example [chat] returns the
    string "Hello", which is not a Chat Message record. *)
Lemma chat_returns_text_not_message :
  ~ (forall (svc : services) (messages : loc) (w w' : world) (v : pyval),
       chat svc messages w = (Ret v, w') -> is_chat_message v).
Proof.
  intros H.
  destruct (H (double 200 hello_stream) 1%positive caller
              (snd (chat (double 200 hello_stream) 1%positive caller))
              (VStr "Hello"))
    as (d & content & Hd & _); [|discriminate].
  rewrite (chat_run _ _ _ caller (eq_refl : heap caller !! 1%positive = Some [user_hi])).
  reflexivity.
Qed.

Lemma chat_returns_text_witness :
  ~ is_chat_message (VStr "Hello")
  /\ exists lines,
       streams (double 200 hello_stream) 1%positive caller lines
       /\ ((exists pre fin rest,
              lines = pre ++ Json fin :: rest
              /\ advance initial pre <> None
              /\ final fin
              /\ VStr "Hello" = VStr (joined (map fragment_text pre)))
           \/ (VStr "Hello" = VNone
               /\ advance initial lines <> None
               /\ Forall (fun ln => forall body, ln = Json body -> ~ final body) lines)).
Proof.
  apply (chat_returns_text (double 200 hello_stream) 1%positive caller
           (after_chat 1%positive [user_hi] caller) (VStr "Hello")).
  rewrite (chat_run _ _ _ caller (eq_refl : heap caller !! 1%positive = Some [user_hi])).
  reflexivity.
Defined.

(** C2: the accumulation example yields "Hello"; but a stream that is a
    single final frame, with no fragment before it, makes [chat] raise
    [UnboundLocalError] where the claim promises the empty text. *)
Theorem chat_accumulation_needs_fragment :
  fst (chat (double 200 hello_stream) 1%positive caller) = Ret (VStr "Hello")
  /\ fst (chat (double 200 [ollama_frame true ""]) 1%positive caller)
     = Raise (UnboundLocalError "message")
  /\ fst (chat (double 200 [ollama_frame true ""]) 1%positive caller)
     <> Ret (VStr (joined [])).
Proof.
  rewrite !(chat_streams _ _ _ _ (double_streams _)).
  split; [reflexivity|]. split; [reflexivity | discriminate].
Qed.

Lemma chat_error_frame_witness :
  fst (chat (double 200 [ollama_frame false "Hel"; error_frame "model not found";
                         ollama_frame false "lo"; ollama_frame true ""])
            1%positive caller)
  = Raise (Exception (VStr "model not found"))
  /\ stream_loop initial ([ollama_frame false "Hel"]
                          ++ error_frame "model not found"
                          :: [ollama_frame false "lo"; ollama_frame true ""])
     = (Raise (Exception (VStr "model not found")),
        [ollama_frame false "lo"; ollama_frame true ""]).
Proof.
  apply (chat_error_frame (double 200 _) 1%positive caller
           [ollama_frame false "Hel"] [ollama_frame false "lo"; ollama_frame true ""]
           {| output := "Hel";
              message := Some (VDict [("role", VStr "assistant"); ("content", VStr "Hel")]) |}
           [("error", VStr "model not found")] (VStr "model not found")).
  - apply double_streams.
  - reflexivity.
  - reflexivity.
Defined.

Lemma chat_inserts_system_message_witness :
  heap (snd (chat (double 200 hello_stream) 1%positive caller)) !! 1%positive
  = Some [system_message; user_hi]
  /\ heap (snd (chat (double 200 hello_stream) 1%positive caller))
     = <[1%positive := [system_message; user_hi]]> (heap caller)
  /\ trace (snd (chat (double 200 hello_stream) 1%positive caller))
     = trace caller ++ [Log "Invoking LLM chat enpoint ...";
                        RequestsPost endpoint (request_json [system_message; user_hi]) true]
  /\ path ["messages"] (VDict (request_json [system_message; user_hi]))
     = Some (VList [system_message; user_hi]).
Proof.
  apply (chat_inserts_system_message (double 200 hello_stream) 1%positive [user_hi] caller).
  reflexivity.
Defined.

(** C10, refuted as stated: on an empty stream [chat] returns normally,
    with [None], and no [done: false] frame was processed. *)
Lemma chat_returns_without_fragment :
  ~ (forall (svc : services) (messages : loc) (w : world) (lines : list line) (v : pyval),
       streams svc messages w lines ->
       fst (chat svc messages w) = Ret v ->
       exists pre body post,
         lines = pre ++ Json body :: post
         /\ dict_lookup "done" body = Some (VBool false)).
Proof.
  intros H.
  destruct (H (double 200 []) 1%positive caller [] VNone (double_streams []))
    as (pre & body & post & Hlines & _).
  - rewrite (chat_streams _ _ _ _ (double_streams [])). reflexivity.
  - by destruct pre.
Qed.

Lemma chat_done_first_witness :
  fst (chat (double 200 [ollama_frame true ""]) 1%positive caller)
  = Raise (UnboundLocalError "message")
  /\ ((VStr "Hello" = VNone
       /\ Forall (fun ln => forall body, ln = Json body -> ~ final body) hello_stream)
      \/ exists pre body post fin rest,
           hello_stream = pre ++ Json body :: post ++ Json fin :: rest
           /\ dict_lookup "done" body = Some (VBool false)
           /\ final fin
           /\ exists s, VStr "Hello" = VStr s).
Proof.
  split.
  - destruct (chat_done_first (double 200 [ollama_frame true ""]) 1%positive caller
                [ollama_frame true ""] (double_streams _)) as [H _].
    apply (H _ [] eq_refl). split; reflexivity.
  - destruct (chat_done_first (double 200 hello_stream) 1%positive caller
                hello_stream (double_streams _)) as [_ H].
    apply (H (VStr "Hello")). rewrite (chat_streams _ _ _ _ (double_streams _)). reflexivity.
Defined.

End ChatRuns.

(** ** Thread history *)

Section ThreadFetch.

Import SlackUtilities.

Variable svc : services.

Definition is_log (e : event) : bool :=
  match e with Log _ => true | _ => false end.

(** The world after the handler's [return []]: a new, empty list object. *)
Lemma new_list_run (l : list pyval) (w : world) :
  new_list l w
  = (Ret (fresh (dom (heap w))),
     {| heap := <[fresh (dom (heap w)) := l]> (heap w); trace := trace w |}).
Proof. reflexivity. Qed.


(** The platform call raised a [SlackApiError] whose response has a true
    [error] field: the handler returns a new empty list. *)
Lemma fetch_thread_message_api_error (channel thread_ts : pyval) (max_messages : Z)
    (w : world) (resp : dict) :
  conversations_replies svc channel thread_ts max_messages VNone = Raise (SlackApiError resp) ->
  truthy (dict_get "error" resp VNone) = true ->
  fetch_thread_message svc channel thread_ts max_messages w
  = (Ret (fresh (dom (heap w))),
     {| heap := <[fresh (dom (heap w)) := []]> (heap w);
        trace := trace w ++ [ConversationsReplies channel thread_ts max_messages VNone] |}).
Proof.
  intros Hcall Herr.
  unfold fetch_thread_message, try_except_SlackApiError, mbind, M_bind, emit, lift,
    py_assert. simpl. rewrite Hcall, Herr. reflexivity.
Qed.

(** The same error without a true [error] field fails the assertion. *)
Lemma fetch_thread_message_assertion (channel thread_ts : pyval) (max_messages : Z)
    (w : world) (resp : dict) :
  conversations_replies svc channel thread_ts max_messages VNone = Raise (SlackApiError resp) ->
  truthy (dict_get "error" resp VNone) = false ->
  fst (fetch_thread_message svc channel thread_ts max_messages w) = Raise AssertionError.
Proof.
  intros Hcall Herr.
  unfold fetch_thread_message, try_except_SlackApiError, mbind, M_bind, emit, lift,
    py_assert. simpl. rewrite Hcall, Herr. reflexivity.
Qed.



(** The [except] clause, for whatever exception [e] the [try] block ended
    with after logging [logged]. *)
Ltac handled e logged :=
  let resp := fresh "resp" in
  destruct e as [| | | | | | | |resp|]; simpl;
  try (exists logged; rewrite <- ?app_assoc; simpl; by repeat split);
  destruct (truthy (dict_get "error" resp VNone)); simpl;
  exists logged; rewrite <- ?app_assoc; simpl; repeat split;
  exists []; by rewrite lookup_insert_eq.

(** What a fetch leaves behind: one platform call and at most log lines in
    the trace; on return, a new list object and no other change. *)
Lemma fetch_thread_message_effects (channel thread_ts : pyval) (max_messages : Z)
    (w : world) :
  exists logs,
    forallb is_log logs = true
    /\ trace (snd (fetch_thread_message svc channel thread_ts max_messages w))
       = trace w ++ ConversationsReplies channel thread_ts max_messages VNone :: logs
    /\ match fst (fetch_thread_message svc channel thread_ts max_messages w) with
       | Ret history =>
           exists msgs,
             heap (snd (fetch_thread_message svc channel thread_ts max_messages w)) !! history
             = Some msgs
       | Raise _ => True
       end.
Proof.
  unfold fetch_thread_message, try_except_SlackApiError, mbind, M_bind, emit, lift,
    logging_info, emit, py_assert, mret, M_ret, throw.
  simpl.
  destruct (conversations_replies svc channel thread_ts max_messages VNone)
    as [response|e]; simpl.
  - destruct (py_len (dict_get "messages" response (VList []))) as [n|e]; simpl.
    + destruct (py_iter (dict_get "messages" response (VList []))) as [items|e]; simpl.
      * destruct (thread_entries svc items) as [ms|e]; simpl.
        -- exists [Log ("Thread messages extracted contains " +:+ pretty n +:+ " messages")].
           rewrite <- app_assoc. simpl. repeat split.
           exists ms. by rewrite lookup_insert_eq.
        -- handled e [Log ("Thread messages extracted contains " +:+ pretty n +:+ " messages")].
      * handled e [Log ("Thread messages extracted contains " +:+ pretty n +:+ " messages")].
    + handled e (@nil event).
  - handled e (@nil event).
Qed.

End ThreadFetch.

(** ** The bot service *)

Section BotService.

Import LlmInteract SlackUtilities BeebrainApp.

Variable svc : services.

Definition is_fetch (e : event) : bool :=
  match e with ConversationsReplies _ _ _ _ => true | _ => false end.

Definition is_llm_request (e : event) : bool :=
  match e with RequestsPost _ _ _ => true | _ => false end.

Definition is_post (e : event) : bool :=
  match e with ChatPostMessage _ _ _ => true | _ => false end.

(** The thread fetches, LLM requests and message posts of a trace, in
    order: what is left when log lines, reaction calls and router calls are
    taken out. *)
Definition routing (tr : list event) : list event :=
  List.filter (fun e => is_fetch e || is_llm_request e || is_post e) tr.

Lemma routing_app (tr1 tr2 : list event) :
  routing (tr1 ++ tr2) = routing tr1 ++ routing tr2.
Proof. apply List.filter_app. Qed.

Lemma routing_logs (logs : list event) :
  forallb is_log logs = true -> routing logs = [].
Proof.
  induction logs as [|e logs IH]; [done|]. simpl.
  destruct e; simpl; try discriminate. exact IH.
Qed.

Lemma routing_fetch_logs (channel ts cursor : pyval) (limit : Z) (logs : list event) :
  forallb is_log logs = true ->
  routing (ConversationsReplies channel ts limit cursor :: logs)
  = [ConversationsReplies channel ts limit cursor].
Proof. intros H. change (routing (?e :: ?l)) with (e :: routing l). by rewrite routing_logs. Qed.

(** Removing the reaction adds no fetch, LLM request or post. *)
Lemma remove_reaction_effects (channel ts reaction : pyval) (w : world) :
  exists new,
    trace (snd (remove_reaction svc channel ts reaction w)) = trace w ++ new
    /\ routing new = [].
Proof.
  unfold remove_reaction, try_except_SlackApiError, mbind, M_bind, emit, lift,
    logging_info, emit, py_assert, mret, M_ret, throw. simpl.
  destruct (reactions_remove svc channel ts reaction) as [response|e]; simpl.
  - eexists. rewrite <- app_assoc. split; [reflexivity | reflexivity].
  - destruct e as [| | | | | | | |resp|]; simpl;
      try (eexists; split; [reflexivity | reflexivity]).
    destruct (truthy (dict_get "error" resp VNone)); simpl;
      eexists; split; reflexivity.
Qed.

(** The messages of an event that is not in a thread are not acted upon. *)
Lemma handle_messages_unthreaded (body event : dict) (w : world) :
  dict_get "event" body (VDict []) = VDict event ->
  dict_has "thread_ts" event = false ->
  handle_messages svc body w = (Ret VNone, w).
Proof. intros He Ht. unfold handle_messages. by rewrite He, Ht. Qed.

(** What the handler does once [chat] has returned [reply]. *)
Definition reply_in_thread (channel reply parent_ts timestamp : pyval) : M pyval :=
  logging_info ("Response from LLM: " +:+ py_str svc reply) ;;
  emit (ChatPostMessage channel reply parent_ts) ;;
  _ ← lift (chat_postMessage svc channel reply parent_ts) ;
  remove_reaction svc channel timestamp (VStr "eyes") ;;
  mret VNone.

(** The threaded path, step by step: a failed fetch or a failed [chat]
    ends the handler with that exception. *)
Lemma handle_messages_steps (body event : dict) (w : world) :
  dict_get "event" body (VDict []) = VDict event ->
  dict_has "thread_ts" event = true ->
  handle_messages svc body w
  = match fetch_thread_message svc (dict_get "channel" event (VStr ""))
            (dict_get "thread_ts" event (VStr "")) 50 w with
    | (Raise e, w1) => (Raise e, w1)
    | (Ret history, w1) =>
        match chat svc history w1 with
        | (Raise e, w2) => (Raise e, w2)
        | (Ret reply, w2) =>
            reply_in_thread (dict_get "channel" event (VStr "")) reply
              (dict_get "thread_ts" event (VStr "")) (dict_get "ts" event (VStr "")) w2
        end
    end.
Proof.
  intros He Ht. unfold handle_messages. rewrite He, Ht.
  change default_max_messages with 50. unfold mbind at 1, M_bind at 1.
  destruct (fetch_thread_message svc _ _ 50 w) as [[history|e] w1]; [|reflexivity].
  unfold mbind at 1, M_bind at 1.
  destruct (chat svc history w1) as [[reply|e] w2]; reflexivity.
Qed.

Lemma reply_in_thread_effects (channel reply parent_ts timestamp : pyval) (w : world) :
  exists new,
    trace (snd (reply_in_thread channel reply parent_ts timestamp w)) = trace w ++ new
    /\ routing new = [ChatPostMessage channel reply parent_ts].
Proof.
  unfold reply_in_thread, mbind, M_bind, logging_info, emit, lift, mret, M_ret.
  cbn [trace heap].
  destruct (chat_postMessage svc channel reply parent_ts) as [posted|e].
  - match goal with |- context [remove_reaction svc ?c ?t ?r ?w0] =>
      destruct (remove_reaction_effects c t r w0) as (more & Hmore & Hrout);
      destruct (remove_reaction svc c t r w0) as [[removed|e] w3]
    end; simpl in Hmore; simpl; rewrite Hmore, <- !app_assoc;
      (eexists; split; [reflexivity|]);
      rewrite !routing_app, Hrout; reflexivity.
  - simpl. rewrite <- app_assoc. eexists. split; reflexivity.
Qed.

Lemma handle_messages_threaded (body event : dict) (w : world) :
  dict_get "event" body (VDict []) = VDict event ->
  dict_has "thread_ts" event = true ->
  exists new,
    trace (snd (handle_messages svc body w)) = trace w ++ new
    /\ match fetch_thread_message svc (dict_get "channel" event (VStr ""))
               (dict_get "thread_ts" event (VStr "")) 50 w with
       | (Raise e, _) =>
           fst (handle_messages svc body w) = Raise e
           /\ routing new
              = [ConversationsReplies (dict_get "channel" event (VStr ""))
                   (dict_get "thread_ts" event (VStr "")) 50 VNone]
       | (Ret history, w1) =>
           exists msgs,
             heap w1 !! history = Some msgs
             /\ match fst (chat svc history w1) with
                | Raise e =>
                    fst (handle_messages svc body w) = Raise e
                    /\ routing new
                       = [ConversationsReplies (dict_get "channel" event (VStr ""))
                            (dict_get "thread_ts" event (VStr "")) 50 VNone;
                          RequestsPost endpoint (request_json (system_message :: msgs)) true]
                | Ret reply =>
                    routing new
                    = [ConversationsReplies (dict_get "channel" event (VStr ""))
                         (dict_get "thread_ts" event (VStr "")) 50 VNone;
                       RequestsPost endpoint (request_json (system_message :: msgs)) true;
                       ChatPostMessage (dict_get "channel" event (VStr "")) reply
                         (dict_get "thread_ts" event (VStr ""))]
                end
       end.
Proof.
  intros He Ht. rewrite (handle_messages_steps _ _ _ He Ht).
  set (channel := dict_get "channel" event (VStr "")).
  set (parent_ts := dict_get "thread_ts" event (VStr "")).
  destruct (fetch_thread_message_effects svc channel parent_ts 50 w)
    as (logs & Hlogs & Htr & Hheap).
  destruct (fetch_thread_message svc channel parent_ts 50 w) as [[history|e] w1];
    simpl in Htr, Hheap.
  - destruct Hheap as [msgs Hmsgs]. rewrite (chat_run svc _ _ _ Hmsgs). cbn [fst].
    destruct (answer svc (system_message :: msgs)) as [reply|e].
    + destruct (reply_in_thread_effects channel reply parent_ts
                  (dict_get "ts" event (VStr "")) (after_chat history msgs w1))
        as (new & Hnew & Hrout).
      rewrite Hnew. cbn [trace after_chat]. rewrite Htr.
      eexists. split; [by rewrite <- !app_assoc|].
      exists msgs. split; [done|].
      rewrite !routing_app, (routing_fetch_logs _ _ _ _ _ Hlogs), Hrout. reflexivity.
    + cbn [fst snd trace after_chat]. rewrite Htr.
      eexists. split; [by rewrite <- !app_assoc|].
      exists msgs. split; [done|]. split; [done|].
      rewrite !routing_app, (routing_fetch_logs _ _ _ _ _ Hlogs). reflexivity.
  - cbn [fst snd]. rewrite Htr. eexists. split; [reflexivity|]. split; [done|].
    by rewrite (routing_fetch_logs _ _ _ _ _ Hlogs).
Qed.

(** C5 (as amended): an event without [thread_ts] causes no effect at all;
    an event with [thread_ts] causes exactly one thread fetch, then, if the
    fetch returned, exactly one LLM request made by [chat] on the fetched
    list, then, if [chat] returned, exactly one post of its reply into the
    same thread.  A fetch or a [chat] that fails ends the handler with its
    exception, and nothing is posted. *)
Theorem handle_messages_routing (body event : dict) (w : world) :
  dict_get "event" body (VDict []) = VDict event ->
  (dict_has "thread_ts" event = false -> handle_messages svc body w = (Ret VNone, w))
  /\ (dict_has "thread_ts" event = true ->
      exists new,
        trace (snd (handle_messages svc body w)) = trace w ++ new
        /\ match fetch_thread_message svc (dict_get "channel" event (VStr ""))
                   (dict_get "thread_ts" event (VStr "")) 50 w with
           | (Raise e, _) =>
               fst (handle_messages svc body w) = Raise e
               /\ routing new
                  = [ConversationsReplies (dict_get "channel" event (VStr ""))
                       (dict_get "thread_ts" event (VStr "")) 50 VNone]
           | (Ret history, w1) =>
               exists msgs,
                 heap w1 !! history = Some msgs
                 /\ match fst (chat svc history w1) with
                    | Raise e =>
                        fst (handle_messages svc body w) = Raise e
                        /\ routing new
                           = [ConversationsReplies (dict_get "channel" event (VStr ""))
                                (dict_get "thread_ts" event (VStr "")) 50 VNone;
                              RequestsPost endpoint
                                (request_json (system_message :: msgs)) true]
                    | Ret reply =>
                        routing new
                        = [ConversationsReplies (dict_get "channel" event (VStr ""))
                             (dict_get "thread_ts" event (VStr "")) 50 VNone;
                           RequestsPost endpoint
                             (request_json (system_message :: msgs)) true;
                           ChatPostMessage (dict_get "channel" event (VStr "")) reply
                             (dict_get "thread_ts" event (VStr ""))]
                    end
           end).
Proof.
  intros He. split; intros Ht.
  - exact (handle_messages_unthreaded _ _ _ He Ht).
  - exact (handle_messages_threaded _ _ _ He Ht).
Qed.

(** C6 (as amended): a JSON object whose [challenge] field is present and
    true is answered with exactly that field and nothing else happens; an
    object without the field, or with a false value in it (empty text,
    zero, [null], [false]), is handed to the event router, whose answer is
    returned; a body that is not an object (an array, a string, a number,
    a boolean, [null]) makes the route raise [AttributeError] before
    anything else happens: no answer, no router. *)
Theorem index_challenge (data : pyval) (w : world) :
  (forall d v,
     data = VDict d ->
     dict_lookup "challenge" d = Some v -> truthy v = true ->
     index svc data w = (Ret (jsonify [("challenge", v)]), w))
  /\ (forall d,
        data = VDict d ->
        (dict_lookup "challenge" d = None
         \/ exists v, dict_lookup "challenge" d = Some v /\ truthy v = false) ->
        index svc data w
        = handler_handle svc data
            {| heap := heap w; trace := trace w ++ [HandlerHandle data] |})
  /\ ((forall d, data <> VDict d) ->
      index svc data w = (Raise (AttributeError "get"), w)).
Proof.
  split; [|split].
  - intros d v -> Hv Ht. unfold index, dict_get. by rewrite Hv, Ht.
  - intros d -> [Hnone|(v & Hv & Ht)]; unfold index, dict_get.
    + by rewrite Hnone.
    + by rewrite Hv, Ht.
  - intros Hno. destruct data as [| | | | |d]; try reflexivity. by destruct (Hno d).
Qed.

End BotService.


(** ** Concrete runs of the bot service *)

Section BotRuns.

Import LlmInteract SlackUtilities BeebrainApp.

(** A world with no list objects and nothing observed yet. *)
Definition idle : world := {| heap := ∅; trace := [] |}.

(** A message event posted in the thread 1.0 of channel C1. *)
Definition threaded_event : dict :=
  [("type", VStr "message"); ("channel", VStr "C1"); ("ts", VStr "2.0");
   ("thread_ts", VStr "1.0"); ("text", VStr "hi")].

Definition threaded_body : dict := [("event", VDict threaded_event)].

(** The same message outside any thread. *)
Definition plain_event : dict :=
  [("type", VStr "message"); ("channel", VStr "C1"); ("ts", VStr "2.0");
   ("text", VStr "hi")].

(** A Slack platform whose reply-fetch call raises [e]. *)
Definition failing_fetch (e : exn) : services :=
  {| conversations_replies := fun _ _ _ _ => Raise e;
     requests_post := requests_post (double 200 hello_stream);
     chat_postMessage := chat_postMessage (double 200 hello_stream);
     reactions_remove := reactions_remove (double 200 hello_stream);
     handler_handle := handler_handle (double 200 hello_stream);
     container_repr := container_repr (double 200 hello_stream) |}.

(** C5, refuted as stated: the event is in a thread, the LLM endpoint
    answers with an error frame, and nothing is posted. *)
Lemma handle_messages_no_post :
  ~ (forall (svc : services) (body event : dict) (w : world),
       dict_get "event" body (VDict []) = VDict event ->
       dict_has "thread_ts" event = true ->
       exists f c p new,
         is_fetch f = true /\ is_llm_request c = true /\ is_post p = true
         /\ trace (snd (handle_messages svc body w)) = trace w ++ new
         /\ routing new = [f; c; p]).
Proof.
  intros H.
  destruct (H (double 200 [error_frame "model not found"]) threaded_body threaded_event
              idle eq_refl eq_refl)
    as (f & c & p & new & _ & _ & _ & Hnew & Hrout).
  simpl in Hnew. subst new. vm_compute in Hrout. discriminate.
Qed.

Lemma handle_messages_routing_witness :
  handle_messages (double 200 hello_stream) [("event", VDict plain_event)] idle
  = (Ret VNone, idle)
  /\ exists new,
       trace (snd (handle_messages (double 200 hello_stream) threaded_body idle))
       = trace idle ++ new
       /\ routing new
          = [ConversationsReplies (VStr "C1") (VStr "1.0") 50 VNone;
             RequestsPost endpoint
               (request_json
                  [system_message;
                   VDict [("role", VStr "user"); ("content", VStr "U1: hi")]])
               true;
             ChatPostMessage (VStr "C1") (VStr "Hello") (VStr "1.0")].
Proof.
  split.
  - apply (handle_messages_routing (double 200 hello_stream)
             [("event", VDict plain_event)] plain_event idle eq_refl).
    reflexivity.
  - destruct (handle_messages_routing (double 200 hello_stream)
                threaded_body threaded_event idle eq_refl) as [_ H].
    destruct (H eq_refl) as (new & Hnew & Hrout).
    exists new. split; [exact Hnew|].
    simpl in Hnew. subst new. vm_compute. reflexivity.
Defined.

(** C6, refuted as stated: the body has a [challenge] field holding the
    empty text, and the request goes to the event router instead of being
    echoed. *)
Lemma index_empty_challenge :
  ~ (forall (svc : services) (data : dict) (w : world) (v : pyval),
       dict_lookup "challenge" data = Some v ->
       index svc (VDict data) w = (Ret (jsonify [("challenge", v)]), w)).
Proof.
  intros H.
  specialize (H (double 200 hello_stream) [("challenge", VStr "")] idle (VStr "") eq_refl).
  discriminate.
Qed.

Lemma index_challenge_witness :
  index (double 200 hello_stream) (VDict [("challenge", VStr "abc123")]) idle
  = (Ret (jsonify [("challenge", VStr "abc123")]), idle)
  /\ index (double 200 hello_stream) (VDict [("challenge", VStr "")]) idle
     = (Ret VNone,
        {| heap := ∅; trace := [HandlerHandle (VDict [("challenge", VStr "")])] |})
  /\ index (double 200 hello_stream) (VList [VDict [("challenge", VStr "abc123")]]) idle
     = (Raise (AttributeError "get"), idle).
Proof.
  split; [|split].
  - destruct (index_challenge (double 200 hello_stream)
                (VDict [("challenge", VStr "abc123")]) idle) as [H _].
    apply (H [("challenge", VStr "abc123")] (VStr "abc123")); reflexivity.
  - destruct (index_challenge (double 200 hello_stream)
                (VDict [("challenge", VStr "")]) idle) as (_ & H & _).
    apply (H [("challenge", VStr "")] eq_refl).
    right. exists (VStr ""). split; reflexivity.
  - destruct (index_challenge (double 200 hello_stream)
                (VList [VDict [("challenge", VStr "abc123")]]) idle) as (_ & _ & H).
    apply H. intros d. discriminate.
Defined.


Definition channel_not_found : dict :=
  [("ok", VBool false); ("error", VStr "channel_not_found")].


End BotRuns.

(** * Further properties *)

(** ** The two parameter tables of a descriptor *)

Section ParameterTables.

Import AiToolTag.

Lemma dict_set_absent (k : string) (v : pyval) (d : dict) :
  dict_lookup k d = None -> dict_set k v d = d ++ [(k, v)].
Proof.
  induction d as [|[k' v'] d IH]; simpl; [done|].
  destruct (String.eqb k k'); [discriminate|]. intros H. by rewrite (IH H).
Qed.

Lemma dict_lookup_snoc_ne (k k' : string) (v : pyval) (d : dict) :
  k <> k' -> dict_lookup k d = None -> dict_lookup k (d ++ [(k', v)]) = None.
Proof.
  intros Hne. induction d as [|[k1 v1] d IH]; simpl.
  - intros _. by destruct (String.eqb_spec k k').
  - destruct (String.eqb k k1); [discriminate | exact IH].
Qed.

(** The entry of [parameters.properties] for one declared parameter. *)
Definition property_of (p : string * option hint) : string * pyval :=
  (fst p, VStr (hint_text (snd p))).

Lemma properties_from (ps : list (string * option hint)) (acc : dict) :
  List.NoDup (map fst ps) ->
  (forall p, In p ps -> dict_lookup (fst p) acc = None) ->
  fold_left
    (fun acc param =>
       match dict_get "name" param VNone with
       | VStr name => dict_set name (dict_get "type" param VNone) acc
       | _ => acc
       end)
    (map (fun p => [("name", VStr (fst p)); ("type", VStr (hint_text (snd p)))]) ps)
    acc
  = acc ++ map property_of ps.
Proof.
  revert acc. induction ps as [|p ps IH]; intros acc Hnd Hacc; simpl.
  - by rewrite app_nil_r.
  - apply List.NoDup_cons_iff in Hnd as [Hp Hnd].
    change (dict_get "type" [("name", VStr (fst p)); ("type", VStr (hint_text (snd p)))] VNone)
      with (VStr (hint_text (snd p))).
    rewrite (dict_set_absent _ _ _ (Hacc p (or_introl eq_refl))).
    rewrite IH; [by rewrite <- app_assoc | exact Hnd |].
    intros q Hq. apply dict_lookup_snoc_ne; [|apply Hacc; by right].
    intros Heq. apply Hp. rewrite <- Heq. by apply in_map.
Qed.

(** X1: for a tagged function (whose parameter names are distinct, as
    Python requires), the descriptor's [parameters.properties] object has
    one key per parameter, in declaration order, and each key's value is the
    type text that [input_params] records for that parameter; a parameter
    or return type without annotation reads "Any". *)
Theorem descriptor_tables_agree (func : pyfunc) (text : string) :
  List.NoDup (map fst (parameters func)) ->
  path ["function"; "parameters"; "properties"] (descriptor func text)
  = Some (VDict (map property_of (parameters func)))
  /\ path ["function"; "input_params"] (descriptor func text)
     = Some (VList (map (fun p => VDict [("name", VStr (fst p)); ("type", snd (property_of p))])
                        (parameters func)))
  /\ path ["function"; "output_type"] (descriptor func text)
     = Some (VStr (match return_annotation func with
                   | Some t => hint_str t
                   | None => "Any"
                   end)).
Proof.
  intros Hnd. split; [|split].
  - cbn. unfold properties, param_infos.
    by rewrite (properties_from _ [] Hnd (fun _ _ => eq_refl)).
  - cbn. unfold param_infos. by rewrite List.map_map.
  - reflexivity.
Qed.

(** A function with an unannotated parameter and no return annotation. *)
Definition shout : pyfunc :=
  aitool "Upper-cases a text"
    {| func_name := "shout";
       parameters := [("text", Some (Class "str")); ("times", None)];
       return_annotation := None;
       aitool_description := None |}.

Lemma descriptor_tables_agree_witness :
  path ["function"; "parameters"; "properties"] (descriptor shout "Upper-cases a text")
  = Some (VDict [("text", VStr "<class 'str'>"); ("times", VStr "Any")])
  /\ path ["function"; "input_params"] (descriptor shout "Upper-cases a text")
     = Some (VList [VDict [("name", VStr "text"); ("type", VStr "<class 'str'>")];
                    VDict [("name", VStr "times"); ("type", VStr "Any")]])
  /\ path ["function"; "output_type"] (descriptor shout "Upper-cases a text")
     = Some (VStr "Any").
Proof.
  apply (descriptor_tables_agree shout "Upper-cases a text").
  repeat constructor; simpl; intuition discriminate.
Defined.

End ParameterTables.

(** ** The descriptor text is plain ASCII *)

Section AsciiOutput.

Import AiToolTag.















End AsciiOutput.

(** ** More on the streaming loop *)

Section StreamLoopMore.

Import LlmInteract.

(** A frame the loop passes over: no error, and a [done] that is neither
    [False] nor true (absent, [null], 0, empty). *)
Definition passed_over (body : dict) : Prop :=
  dict_lookup "error" body = None
  /\ is_False (dict_lookup "done" body) = false
  /\ truthy (dict_get "done" body (VBool false)) = false.

Lemma frame_passed_over (st : locals) (body : dict) :
  passed_over body -> frame st (Json body) = Next st.
Proof.
  intros (Herr & HF & Ht). unfold frame, accumulate, finish.
  by rewrite Herr, HF, Ht.
Qed.

(** X3: once the loop has ended inside a stream, by a return or by an
    exception, whatever follows in the stream has no influence on the
    outcome: it is only left unread. *)
Theorem stream_loop_ended (st : locals) (lines extra : list line) :
  advance st lines = None ->
  stream_loop st (lines ++ extra)
  = (fst (stream_loop st lines), snd (stream_loop st lines) ++ extra).
Proof.
  revert st. induction lines as [|ln lines IH]; intros st Hadv; [discriminate|].
  cbn [advance] in Hadv. cbn [app stream_loop].
  destruct (frame st ln) as [st1|v|e]; [by apply IH | done | done].
Qed.

Lemma stream_loop_ended_witness :
  stream_loop initial (hello_stream ++ [error_frame "late"; NotJson])
  = (fst (stream_loop initial hello_stream),
     snd (stream_loop initial hello_stream) ++ [error_frame "late"; NotJson]).
Proof. apply (stream_loop_ended initial hello_stream). reflexivity. Defined.

(** X4: a frame without an [error] key whose [done] is absent, [null] or
    another false value that is not [False] itself changes nothing: with or
    without it, anywhere in the stream, the loop has the same outcome. *)
Theorem stream_loop_passes_over (st : locals) (pre post : list line) (body : dict) :
  passed_over body ->
  fst (stream_loop st (pre ++ Json body :: post)) = fst (stream_loop st (pre ++ post)).
Proof.
  intros Hp. revert st. induction pre as [|ln pre IH]; intros st.
  - cbn [app stream_loop]. by rewrite (frame_passed_over _ _ Hp).
  - cbn [app stream_loop]. destruct (frame st ln); [apply IH | done | done].
Qed.

Lemma stream_loop_passes_over_witness :
  fst (stream_loop initial
         ([ollama_frame false "Hel"]
          ++ Json [("model", VStr model); ("done", VNone)]
          :: [ollama_frame false "lo"; ollama_frame true ""]))
  = fst (stream_loop initial
           ([ollama_frame false "Hel"] ++ [ollama_frame false "lo"; ollama_frame true ""])).
Proof.
  apply (stream_loop_passes_over initial [ollama_frame false "Hel"]).
  repeat split.
Defined.

(** A [done: false] frame that the loop gets past has bound [message]. *)
Lemma frame_binds (st st' : locals) (body : dict) :
  dict_lookup "done" body = Some (VBool false) ->
  frame st (Json body) = Next st' ->
  exists m, message st' = Some (VDict m).
Proof.
  intros Hd. unfold frame, accumulate, finish.
  destruct (dict_lookup "error" body); [discriminate|]. rewrite Hd. cbn [is_False].
  destruct (dict_get "message" body (VStr "")) as [| | | | |m]; try discriminate.
  destruct (dict_get "content" m (VStr "")); try discriminate.
  unfold dict_get. rewrite Hd. simpl. intros [= <-]. by exists m.
Qed.

(** Once bound, [message] stays bound. *)
Lemma frame_keeps_bound (st st' : locals) (ln : line) (m : dict) :
  message st = Some (VDict m) ->
  frame st ln = Next st' ->
  exists m', message st' = Some (VDict m').
Proof.
  intros Hm Hfr. destruct (frame_next _ _ _ Hfr) as [->|(body & m' & _ & _ & Hm')]; eauto.
Qed.

Lemma advance_keeps_bound (st st' : locals) (lines : list line) (m : dict) :
  message st = Some (VDict m) ->
  advance st lines = Some st' ->
  exists m', message st' = Some (VDict m').
Proof.
  revert st m. induction lines as [|ln lines IH]; intros st m Hm Hadv.
  - injection Hadv as <-. eauto.
  - cbn [advance] in Hadv. destruct (frame st ln) as [st1| |] eqn:Hfr; try discriminate.
    destruct (frame_keeps_bound _ _ _ _ Hm Hfr) as [m1 Hm1]. by apply (IH st1 m1).
Qed.

Lemma advance_bound (st st' : locals) (lines : list line) :
  Exists (fun ln => exists body,
            ln = Json body /\ dict_lookup "done" body = Some (VBool false)) lines ->
  advance st lines = Some st' ->
  exists m, message st' = Some (VDict m).
Proof.
  intros Hex. revert st. induction Hex as [ln lines (body & -> & Hd)|ln lines _ IH];
    intros st Hadv; cbn [advance] in Hadv.
  - destruct (frame st (Json body)) as [st1| |] eqn:Hfr; try discriminate.
    destruct (frame_binds _ _ _ Hd Hfr) as [m Hm].
    by apply (advance_keeps_bound st1 st' lines m).
  - destruct (frame st ln) as [st1| |]; try discriminate. by apply (IH st1).
Qed.

(** The buffer only grows: what was accumulated stays at the front. *)
Lemma advance_output (st st' : locals) (lines : list line) :
  advance st lines = Some st' ->
  exists more, output st' = output st +:+ more.
Proof.
  revert st. induction lines as [|ln lines IH]; intros st Hadv.
  - injection Hadv as <-. exists "". by rewrite append_empty_r.
  - cbn [advance] in Hadv. destruct (frame st ln) as [st1| |] eqn:Hfr; try discriminate.
    destruct (IH _ Hadv) as [more Hmore]. rewrite Hmore.
    destruct ln as [body|]; [|discriminate].
    unfold frame, accumulate, finish in Hfr.
    destruct (dict_lookup "error" body); [discriminate|].
    destruct (is_False (dict_lookup "done" body)).
    + destruct (dict_get "message" body (VStr "")) as [| | | | |m]; try discriminate.
      destruct (dict_get "content" m (VStr "")) as [| | |content| |]; try discriminate.
      destruct (truthy (dict_get "done" body (VBool false))).
      * cbn [message] in Hfr. by rewrite dict_lookup_set_eq in Hfr.
      * injection Hfr as <-. cbn [output]. exists (content +:+ more).
        by rewrite append_assoc.
    + destruct (truthy (dict_get "done" body (VBool false))).
      * destruct (message st) as [[| | | | |m]|]; try discriminate.
        by rewrite dict_lookup_set_eq in Hfr.
      * injection Hfr as <-. by exists more.
Qed.

End StreamLoopMore.

(** ** More on the chat client *)

Section ChatClientMore.

Import LlmInteract.

Variable svc : services.

(** X6: once a [done: false] frame has been processed, a final frame makes
    [chat] return the text accumulated so far; the unbound [message] cannot
    strike any more, whatever other frames came in between. *)
Theorem chat_returns_after_fragment (messages : loc) (w : world)
    (pre rest : list line) (fin : dict) (st : locals) :
  streams svc messages w (pre ++ Json fin :: rest) ->
  advance initial pre = Some st ->
  Exists (fun ln => exists body,
            ln = Json body /\ dict_lookup "done" body = Some (VBool false)) pre ->
  final fin ->
  fst (chat svc messages w) = Ret (VStr (output st)).
Proof.
  intros Hs Hadv Hex Hfin. rewrite (chat_streams _ _ _ _ Hs).
  rewrite (stream_loop_advance _ _ _ _ Hadv). cbn [stream_loop].
  destruct (advance_bound _ _ _ Hex Hadv) as [m Hm].
  by rewrite (frame_final_bound st fin m Hfin Hm).
Qed.

(** X7: every call of [chat] on the same list puts one more system message
    in front of it: after [k] calls, whatever their outcomes, the list is
    [k] system messages followed by what it held before. *)
Theorem chat_repeated (messages : loc) (msgs : list pyval) (w : world) (k : nat) :
  heap w !! messages = Some msgs ->
  heap (Nat.iter k (fun w => snd (chat svc messages w)) w) !! messages
  = Some (replicate k system_message ++ msgs).
Proof.
  intros Hm. induction k as [|k IH]; [exact Hm|].
  cbn [Nat.iter nat_rect replicate]. rewrite (chat_run _ _ _ _ IH).
  cbn [snd after_chat heap]. by rewrite lookup_insert_eq.
Qed.

(** X8: a request the server refuses (status 400 to 599) makes [chat]
    raise [HTTPError] with that status without reading a line of the body,
    and an exception of the transport itself comes out of [chat] as it
    is. *)
Theorem chat_request_refused (messages : loc) (msgs : list pyval) (w : world) :
  heap w !! messages = Some msgs ->
  (forall r,
     requests_post svc endpoint (request_json (system_message :: msgs)) true = Ret r ->
     400 <= status_code r < 600 ->
     fst (chat svc messages w) = Raise (HTTPError (status_code r)))
  /\ (forall e,
        requests_post svc endpoint (request_json (system_message :: msgs)) true = Raise e ->
        fst (chat svc messages w) = Raise e).
Proof.
  intros Hm. rewrite (chat_run _ _ _ _ Hm). unfold answer. cbn [fst]. split.
  - intros r -> Hs.
    destruct (Z.leb_spec 400 (status_code r)), (Z.ltb_spec (status_code r) 600);
      simpl; try reflexivity; lia.
  - by intros e ->.
Qed.

(** X9: a [done: false] frame must carry a [message] object with text
    content: without a [message] key (the default is a [str], which has no
    [get]) or with a [message] that is not an object [chat] raises
    [AttributeError]; with a [content] that is not text it raises
    [TypeError]. *)
Theorem chat_malformed_fragment (messages : loc) (w : world)
    (pre rest : list line) (body : dict) (st : locals) :
  streams svc messages w (pre ++ Json body :: rest) ->
  advance initial pre = Some st ->
  dict_lookup "error" body = None ->
  dict_lookup "done" body = Some (VBool false) ->
  ((forall m, dict_get "message" body (VStr "") <> VDict m) ->
   fst (chat svc messages w) = Raise (AttributeError "get"))
  /\ (forall m,
        dict_lookup "message" body = Some (VDict m) ->
        (forall content, dict_get "content" m (VStr "") <> VStr content) ->
        fst (chat svc messages w) = Raise TypeError).
Proof.
  intros Hs Hadv Herr Hd. rewrite (chat_streams _ _ _ _ Hs).
  rewrite (stream_loop_advance _ _ _ _ Hadv). cbn [stream_loop].
  unfold frame, accumulate. rewrite Herr, Hd. cbn [is_False]. split.
  - intros Hno. destruct (dict_get "message" body (VStr "")) as [| | | | |m]; try done.
    by destruct (Hno m).
  - intros m Hmsg Hno. unfold dict_get at 1. rewrite Hmsg.
    destruct (dict_get "content" m (VStr "")) as [| | |content| |]; try done.
    by destruct (Hno content).
Qed.

End ChatClientMore.

Section ChatRunsMore.

Import LlmInteract.

Lemma chat_accumulates_witness :
  fst (chat (double 200 hello_stream) 1%positive caller) = Ret (VStr (joined ["Hel"; "lo"])).
Proof.
  apply (chat_accumulates (double 200 hello_stream) 1%positive caller
           [[("model", VStr model);
             ("message", VDict [("role", VStr "assistant"); ("content", VStr "Hel")]);
             ("done", VBool false)];
            [("model", VStr model);
             ("message", VDict [("role", VStr "assistant"); ("content", VStr "lo")]);
             ("done", VBool false)]]
           ["Hel"; "lo"]
           [("model", VStr model);
            ("message", VDict [("role", VStr "assistant"); ("content", VStr "")]);
            ("done", VBool true)]
           []).
  - apply double_streams.
  - repeat constructor; eexists; split; reflexivity.
  - discriminate.
  - split; reflexivity.
Defined.

(** A stream with a frame that has no [done] flag between the fragments. *)
Definition interleaved_stream : list line :=
  [ollama_frame false "Hel"; Json [("model", VStr model)]; ollama_frame false "lo";
   ollama_frame true "ignored"].

Lemma chat_returns_after_fragment_witness :
  fst (chat (double 200 interleaved_stream) 1%positive caller) = Ret (VStr "Hello").
Proof.
  apply (chat_returns_after_fragment (double 200 interleaved_stream) 1%positive caller
           [ollama_frame false "Hel"; Json [("model", VStr model)]; ollama_frame false "lo"]
           []
           [("model", VStr model);
            ("message", VDict [("role", VStr "assistant"); ("content", VStr "ignored")]);
            ("done", VBool true)]
           {| output := "Hello";
              message := Some (VDict [("role", VStr "assistant"); ("content", VStr "lo")]) |}).
  - apply double_streams.
  - reflexivity.
  - apply Exists_cons_hd. eexists. split; reflexivity.
  - split; reflexivity.
Defined.

Lemma chat_repeated_witness :
  heap (Nat.iter 3 (fun w => snd (chat (double 500 []) 1%positive w)) caller) !! 1%positive
  = Some (replicate 3 system_message ++ [user_hi]).
Proof. apply (chat_repeated (double 500 []) 1%positive [user_hi] caller 3). reflexivity. Defined.

(** An endpoint that cannot be reached. *)
Definition unreachable : services :=
  {| conversations_replies := conversations_replies (double 200 []);
     requests_post := fun _ _ _ => Raise (OtherError "ConnectionError");
     chat_postMessage := chat_postMessage (double 200 []);
     reactions_remove := reactions_remove (double 200 []);
     handler_handle := handler_handle (double 200 []);
     container_repr := container_repr (double 200 []) |}.

Lemma chat_request_refused_witness :
  fst (chat (double 404 hello_stream) 1%positive caller) = Raise (HTTPError 404)
  /\ fst (chat unreachable 1%positive caller) = Raise (OtherError "ConnectionError").
Proof.
  split.
  - destruct (chat_request_refused (double 404 hello_stream) 1%positive [user_hi] caller
                eq_refl) as [H _].
    apply (H {| status_code := 404; iter_lines := hello_stream |} eq_refl).
    simpl. lia.
  - destruct (chat_request_refused unreachable 1%positive [user_hi] caller eq_refl)
      as [_ H].
    apply (H (OtherError "ConnectionError") eq_refl).
Defined.

Lemma chat_malformed_fragment_witness :
  fst (chat (double 200 [Json [("done", VBool false)]]) 1%positive caller)
  = Raise (AttributeError "get")
  /\ fst (chat (double 200 [Json [("message", VDict [("content", VNone)]);
                                  ("done", VBool false)]]) 1%positive caller)
     = Raise TypeError.
Proof.
  split.
  - destruct (chat_malformed_fragment (double 200 [Json [("done", VBool false)]])
                1%positive caller [] [] [("done", VBool false)] initial
                (double_streams _) eq_refl eq_refl eq_refl) as [H _].
    apply H. intros m. discriminate.
  - destruct (chat_malformed_fragment
                (double 200 [Json [("message", VDict [("content", VNone)]);
                                   ("done", VBool false)]])
                1%positive caller [] []
                [("message", VDict [("content", VNone)]); ("done", VBool false)] initial
                (double_streams _) eq_refl eq_refl eq_refl) as [_ H].
    apply (H [("content", VNone)] eq_refl). intros content. discriminate.
Defined.

End ChatRunsMore.

(** ** More on the thread fetch and the reaction helper *)

Section ThreadFetchMore.

Import LlmInteract SlackUtilities BeebrainApp.

Variable svc : services.

(** The Chat Message made of one thread message. *)
Definition thread_message (d : dict) : pyval :=
  VDict [("role", VStr "user");
         ("content", VStr (py_str svc (dict_get "user" d (VStr ""))
                           +:+ ": " +:+ py_str svc (dict_get "text" d (VStr ""))))].

Lemma thread_entries_dicts (ds : list dict) :
  thread_entries svc (map VDict ds) = Ret (map thread_message ds).
Proof. induction ds as [|d ds IH]; [done|]. cbn [map thread_entries thread_entry]. by rewrite IH. Qed.

(** X10: when the platform answers with a [messages] list of objects, the
    fetch returns a new list with one Chat Message per thread message, in
    order, each with role "user" and the content "<user>: <text>" (a
    missing user or text reads as empty); the count is logged and no
    existing list changes.  A response without a [messages] key gives an
    empty list. *)
Theorem fetch_thread_message_history (channel thread_ts : pyval) (max_messages : Z)
    (w : world) (response : dict) (ds : list dict) :
  conversations_replies svc channel thread_ts max_messages VNone = Ret response ->
  dict_get "messages" response (VList []) = VList (map VDict ds) ->
  fetch_thread_message svc channel thread_ts max_messages w
  = (Ret (fresh (dom (heap w))),
     {| heap := <[fresh (dom (heap w)) := map thread_message ds]> (heap w);
        trace := trace w
                 ++ [ConversationsReplies channel thread_ts max_messages VNone;
                     Log ("Thread messages extracted contains "
                          +:+ pretty (length ds) +:+ " messages")] |}).
Proof.
  intros Hcall Hmsgs.
  unfold fetch_thread_message, try_except_SlackApiError, mbind, M_bind, emit, lift,
    logging_info, emit, new_list. cbn [heap trace]. rewrite Hcall, Hmsgs.
  cbn [py_len py_iter]. rewrite thread_entries_dicts, length_map, <- app_assoc.
  reflexivity.
Qed.

(** X11: the fetch never lets a [SlackApiError] out, whatever the platform
    does: it returns, or it raises something else (the failed assertion
    included). *)
Theorem fetch_thread_message_no_api_error (channel thread_ts : pyval)
    (max_messages : Z) (w : world) (resp : dict) :
  fst (fetch_thread_message svc channel thread_ts max_messages w)
  <> Raise (SlackApiError resp).
Proof.
  unfold fetch_thread_message, try_except_SlackApiError, mbind, M_bind, emit, lift,
    logging_info, emit, py_assert, mret, M_ret, throw, new_list.
  cbn [heap trace].
  repeat match goal with
         | |- context [match ?o with Ret _ => _ | Raise _ => _ end] =>
             let e := fresh "e" in
             destruct o as [?|e]; cbn [fst];
             [|destruct e as [| | | | | | | |?|]; try discriminate]
         | |- context [if truthy ?v then _ else _] => destruct (truthy v); cbn [fst]
         end; discriminate.
Qed.

(** X12: the reaction helper, too, keeps a [SlackApiError] in: when the
    platform refuses with a response that has a true [error] field the
    helper returns [None]; and it never raises [SlackApiError]. *)
Theorem remove_reaction_swallows (channel ts reaction : pyval) (w : world) :
  (forall resp,
     reactions_remove svc channel ts reaction = Raise (SlackApiError resp) ->
     truthy (dict_get "error" resp VNone) = true ->
     remove_reaction svc channel ts reaction w
     = (Ret VNone,
        {| heap := heap w; trace := trace w ++ [ReactionsRemove channel ts reaction] |}))
  /\ forall resp,
       fst (remove_reaction svc channel ts reaction w) <> Raise (SlackApiError resp).
Proof.
  unfold remove_reaction, try_except_SlackApiError, mbind, M_bind, emit, lift,
    logging_info, emit, py_assert, mret, M_ret, throw. cbn [heap trace]. split.
  - intros resp -> Herr. by rewrite Herr.
  - intros resp.
    destruct (reactions_remove svc channel ts reaction) as [?|e]; [discriminate|].
    destruct e as [| | | | | | | |resp'|]; try discriminate.
    destruct (truthy (dict_get "error" resp' VNone)); discriminate.
Qed.

(** X13: when the thread fetch fails with an API error that the fetch
    swallows, the handler goes on all the same: the LLM is asked with the
    system message as the whole conversation. *)
Theorem handle_messages_after_failed_fetch (body event : dict) (w : world) (resp : dict) :
  dict_get "event" body (VDict []) = VDict event ->
  dict_has "thread_ts" event = true ->
  conversations_replies svc (dict_get "channel" event (VStr ""))
    (dict_get "thread_ts" event (VStr "")) 50 VNone = Raise (SlackApiError resp) ->
  truthy (dict_get "error" resp VNone) = true ->
  exists new,
    trace (snd (handle_messages svc body w))
    = trace w
      ++ [ConversationsReplies (dict_get "channel" event (VStr ""))
            (dict_get "thread_ts" event (VStr "")) 50 VNone;
          Log "Invoking LLM chat enpoint ...";
          RequestsPost endpoint (request_json [system_message]) true]
      ++ new.
Proof.
  intros He Ht Hcall Herr. rewrite (handle_messages_steps _ _ _ _ He Ht).
  rewrite (fetch_thread_message_api_error _ _ _ _ _ _ Hcall Herr).
  match goal with |- context [chat svc ?h ?w1] =>
    rewrite (chat_run svc h [] w1) by (cbn [heap]; apply lookup_insert_eq)
  end.
  destruct (answer svc [system_message]) as [reply|e].
  - match goal with |- context [reply_in_thread svc ?c ?r ?p ?t ?w2] =>
      destruct (reply_in_thread_effects svc c r p t w2) as (new & Hnew & _)
    end.
    exists new. rewrite Hnew. cbn [trace after_chat]. by rewrite <- !app_assoc.
  - exists []. cbn [snd trace after_chat]. by rewrite <- !app_assoc.
Qed.

End ThreadFetchMore.

(** ** The interactive loop *)

Section InteractiveLoop.

Import LlmInteract InteractiveSession.

Variable svc : services.

(** X14: one turn of the interactive loop on a non-empty line.  The user's
    message is appended to the history and [chat] is asked, with one more
    system message in front.  When [chat] returns, its value (the bare
    reply, not a message record) is appended as it is and the loop goes on
    with the next line; when [chat] fails the session ends with that
    exception, and the history keeps the system message and the user's
    message. *)
Theorem session_turn (messages : loc) (msgs : list pyval) (user_input : string)
    (stdin stdout : list string) (w : world) :
  heap w !! messages = Some msgs ->
  user_input <> "" ->
  (forall reply,
     answer svc (system_message :: msgs ++ [user_message user_input]) = Ret reply ->
     session svc messages (user_input :: stdin) stdout w
     = session svc messages stdin (stdout ++ [prompt; nl; nl +:+ nl +:+ nl])
         {| heap := <[messages := system_message :: msgs ++ [user_message user_input; reply]]>
                      (heap w);
            trace := trace w
                     ++ [Log "Invoking LLM chat enpoint ...";
                         RequestsPost endpoint
                           (request_json (system_message :: msgs ++ [user_message user_input]))
                           true] |})
  /\ (forall e,
        answer svc (system_message :: msgs ++ [user_message user_input]) = Raise e ->
        session svc messages (user_input :: stdin) stdout w
        = (Raise e,
           {| heap := <[messages := system_message :: msgs ++ [user_message user_input]]>
                        (heap w);
              trace := trace w
                       ++ [Log "Invoking LLM chat enpoint ...";
                           RequestsPost endpoint
                             (request_json (system_message :: msgs ++ [user_message user_input]))
                             true] |},
           stdout ++ [prompt; nl])).
Proof.
  intros Hm Hne.
  assert (String.eqb user_input "" = false) as Hnb by (by apply String.eqb_neq).
  assert (forall stdin' : list string,
            session svc messages (user_input :: stdin') stdout w
            = match answer svc (system_message :: msgs ++ [user_message user_input]) with
              | Raise e =>
                  (Raise e,
                   after_chat messages (msgs ++ [user_message user_input]) w,
                   stdout ++ [prompt; nl])
              | Ret message =>
                  match list_append messages message
                          (after_chat messages (msgs ++ [user_message user_input]) w) with
                  | (Raise e, w3) => (Raise e, w3, stdout ++ [prompt; nl])
                  | (Ret _, w3) =>
                      session svc messages stdin'
                        (stdout ++ [prompt; nl; nl +:+ nl +:+ nl]) w3
                  end
              end) as Hstep.
  { intros stdin'. cbn [session]. rewrite Hnb. unfold list_append at 1. rewrite Hm.
    rewrite (chat_run svc messages (msgs ++ [user_message user_input]))
      by (cbn [heap]; apply lookup_insert_eq).
    unfold after_chat. cbn [heap trace]. rewrite insert_insert_eq.
    by destruct (answer svc _). }
  rewrite Hstep. unfold after_chat. split.
  - intros reply ->. unfold list_append. cbn [heap trace].
    rewrite lookup_insert_eq, insert_insert_eq.
    by rewrite <- List.app_comm_cons, <- app_assoc.
  - by intros e ->.
Qed.

End InteractiveLoop.

(** ** The user name lookup *)

Section UserNameLookup.

Import UserNames.

Variable users_info : pyval -> outcome dict.

(** X15: the lookup never lets a [SlackApiError] out; and a value it
    returns is either the fallback "Unknown User" or the [real_name] field
    of the [user] object in the platform's answer, as it stands there
    (a [null] included). *)
Theorem get_user_name_result (user_id : pyval) :
  (forall resp, get_user_name users_info user_id <> Raise (SlackApiError resp))
  /\ forall v,
       get_user_name users_info user_id = Ret v ->
       v = VStr "Unknown User"
       \/ exists response user_info,
            users_info user_id = Ret response
            /\ dict_lookup "user" response = Some (VDict user_info)
            /\ dict_lookup "real_name" user_info = Some v.
Proof.
  unfold get_user_name. split.
  - intros resp. destruct (users_info user_id) as [response|e].
    + destruct (dict_get "user" response (VDict [])); discriminate.
    + destruct e as [| | | | | | | |resp'|]; try discriminate.
      destruct (truthy (dict_get "error" resp' VNone)); discriminate.
  - intros v. destruct (users_info user_id) as [response|e].
    + unfold dict_get at 1.
      destruct (dict_lookup "user" response) as [[| | | | |user_info]|] eqn:Hu;
        try discriminate.
      * unfold dict_get.
        destruct (dict_lookup "real_name" user_info) as [name|] eqn:Hn; intros [= <-].
        -- right. by exists response, user_info.
        -- by left.
      * cbn. intros [= <-]. by left.
    + destruct e as [| | | | | | | |resp'|]; try discriminate.
      destruct (truthy (dict_get "error" resp' VNone)); [|discriminate].
      intros [= <-]. by left.
Qed.

End UserNameLookup.

(** ** The mention handler *)

Section MentionHandler.

Import BeebrainApp Mentions.

Variable svc : mention_services.

Definition is_llm_or_fetch (e : mention_event) : bool :=
  match e with
  | Core e' => is_fetch e' || is_llm_request e'
  | ReactionsAdd _ _ _ => false
  end.

Definition is_mention_post (e : mention_event) : bool :=
  match e with
  | Core e' => is_post e'
  | ReactionsAdd _ _ _ => false
  end.

(** The log line of a reaction added, when the platform accepted it. *)
Definition added_log (channel ts reaction : pyval) : list mention_event :=
  match reactions_add svc channel ts reaction with
  | Ret _ =>
      [Core (Log ("Reaction " +:+ py_str (core svc) reaction
                  +:+ " added to message " +:+ py_str (core svc) ts
                  +:+ " in " +:+ py_str (core svc) channel))]
  | Raise _ => []
  end.

Lemma add_reaction_trace (channel ts reaction : pyval) (tr : list mention_event) :
  snd (add_reaction svc channel ts reaction tr)
  = tr ++ ReactionsAdd channel ts reaction :: added_log channel ts reaction.
Proof.
  unfold add_reaction, added_log.
  destruct (reactions_add svc channel ts reaction) as [response|e]; cbn [snd].
  - by rewrite <- app_assoc.
  - destruct e as [| | | | | | | |resp|]; try done.
    by destruct (truthy (dict_get "error" resp VNone)).
Qed.

(** What removing the reaction adds to the trace: the call first, then at
    most a log line. *)
Lemma remove_reaction_trace (channel ts reaction : pyval) (tr : list mention_event) :
  exists logs,
    snd (run_core (remove_reaction (core svc) channel ts reaction) tr)
    = tr ++ Core (ReactionsRemove channel ts reaction) :: map Core logs
    /\ forallb is_log logs = true.
Proof.
  unfold run_core, remove_reaction, try_except_SlackApiError, mbind, M_bind, emit, lift,
    logging_info, emit, py_assert, mret, M_ret, throw. cbn [heap trace snd app].
  destruct (reactions_remove (core svc) channel ts reaction) as [response|e]; cbn.
  - eexists [_]. split; reflexivity.
  - destruct e as [| | | | | | | |resp|]; cbn; try (exists []; by split).
    destruct (truthy (dict_get "error" resp VNone)); cbn; exists []; by split.
Qed.

(** The handler's run when the event is an object, the body's [text] is
    text, and adding the reaction did not raise. *)
Lemma handle_mentions_run (body event : dict) (text : string)
    (tr : list mention_event) (added : pyval) :
  dict_get "event" body (VDict []) = VDict event ->
  dict_get "text" body (VStr "") = VStr text ->
  fst (add_reaction svc (dict_get "channel" event (VStr "")) (dict_get "ts" event (VStr ""))
         (VStr "eyes")
         (tr ++ [Core (Log ("Received app mention: " +:+ py_str (core svc) (VDict body)))]))
  = Ret added ->
  handle_mentions svc body tr
  = let channel := dict_get "channel" event (VStr "") in
    let ts := dict_get "ts" event (VStr "") in
    let tr2 := tr ++ [Core (Log ("Received app mention: " +:+ py_str (core svc) (VDict body)));
                      ReactionsAdd channel ts (VStr "eyes")]
                  ++ added_log channel ts (VStr "eyes")
                  ++ [Core (ChatPostMessage channel (VStr "Yoo") VNone)] in
    match chat_postMessage (core svc) channel (VStr "Yoo") VNone with
    | Raise e => (Raise e, tr2)
    | Ret _ =>
        match run_core (remove_reaction (core svc) channel ts (VStr "eyes")) tr2 with
        | (Raise e, tr3) => (Raise e, tr3)
        | (Ret _, tr3) => (Ret VNone, tr3)
        end
    end.
Proof.
  intros He Ht Hadd. unfold handle_mentions. rewrite He, Ht. cbn [replace_strip].
  match goal with |- context [add_reaction svc ?c ?t ?r ?tr0] =>
    pose proof (add_reaction_trace c t r tr0) as Htr;
    destruct (add_reaction svc c t r tr0) as [o tr1]
  end.
  cbn [fst snd] in Hadd, Htr. subst o tr1. cbv zeta.
  by rewrite <- !app_assoc.
Qed.

Lemma routing_quiet (new : list event) :
  routing new = [] ->
  forallb (fun e => negb (is_llm_or_fetch e)) (map Core new) = true.
Proof.
  induction new as [|e new IH]; [done|]. unfold routing. cbn [List.filter map forallb].
  destruct e; cbn; try discriminate; exact IH.
Qed.

Lemma forallb_logs_quiet (logs : list event) :
  forallb is_log logs = true ->
  forallb (fun e => negb (is_llm_or_fetch e)) (map Core logs) = true
  /\ forallb (fun e => negb (is_mention_post e)) (map Core logs) = true.
Proof.
  induction logs as [|e logs IH]; [done|]. cbn [forallb map].
  destruct e; cbn; try discriminate. exact IH.
Qed.

(** X16: a mention never reaches the LLM: whatever the body and whatever
    the platform answers, the handler sends no LLM request and fetches no
    thread. *)
Theorem handle_mentions_no_llm (body : dict) (tr : list mention_event) :
  exists new,
    snd (handle_mentions svc body tr) = tr ++ new
    /\ forallb (fun e => negb (is_llm_or_fetch e)) new = true.
Proof.
  unfold handle_mentions.
  destruct (dict_get "event" body (VDict [])) as [| | | | |event];
    try (eexists [_]; split; reflexivity).
  match goal with |- context [add_reaction svc ?c ?t ?r ?tr0] =>
    pose proof (add_reaction_trace c t r tr0) as Htr;
    destruct (add_reaction svc c t r tr0) as [[added|e] tr1]
  end; cbn [snd] in Htr; subst tr1.
  - assert (forallb (fun e => negb (is_llm_or_fetch e))
              (added_log (dict_get "channel" event (VStr "")) (dict_get "ts" event (VStr ""))
                 (VStr "eyes")) = true) as Hadded.
    { unfold added_log. by destruct (reactions_add svc _ _ _). }
    destruct (replace_strip (dict_get "text" body (VStr ""))).
    + destruct (chat_postMessage (core svc) _ (VStr "Yoo") VNone).
      * match goal with |- context [run_core (remove_reaction (core svc) ?c ?t ?r) ?tr2] =>
          destruct (remove_reaction_trace c t r tr2) as (logs & Hrm & Hlogs);
          destruct (run_core (remove_reaction (core svc) c t r) tr2) as [[?|?] tr3]
        end; cbn [snd] in Hrm; subst tr3; cbn [snd]; rewrite <- !app_assoc;
          (eexists; split; [reflexivity|]);
          rewrite !forallb_app; cbn [forallb]; rewrite Hadded; cbn;
          apply (forallb_logs_quiet _ Hlogs).
      * cbn [snd]. rewrite <- !app_assoc. eexists. split; [reflexivity|].
        rewrite !forallb_app. cbn [forallb]. rewrite Hadded. reflexivity.
    + cbn [snd]. rewrite <- !app_assoc. eexists. split; [reflexivity|].
      rewrite !forallb_app. cbn [forallb]. rewrite Hadded. reflexivity.
  - cbn [snd]. rewrite <- !app_assoc. eexists. split; [reflexivity|].
    rewrite !forallb_app. cbn. unfold added_log. by destruct (reactions_add svc _ _ _).
Qed.

(** X17: when the event is an object, the body's [text] is text (or
    absent) and adding the reaction did not raise, the handler posts the
    fixed text "Yoo" to the event's channel, outside any thread, exactly
    once, after the call that adds the "eyes" reaction to the mentioning
    message; when the post is accepted, the call that removes that reaction
    follows it. *)
Theorem handle_mentions_posts_yoo (body event : dict) (text : string)
    (tr : list mention_event) (added : pyval) :
  dict_get "event" body (VDict []) = VDict event ->
  dict_get "text" body (VStr "") = VStr text ->
  fst (add_reaction svc (dict_get "channel" event (VStr "")) (dict_get "ts" event (VStr ""))
         (VStr "eyes")
         (tr ++ [Core (Log ("Received app mention: " +:+ py_str (core svc) (VDict body)))]))
  = Ret added ->
  exists logs after,
    snd (handle_mentions svc body tr)
    = tr ++ [Core (Log ("Received app mention: " +:+ py_str (core svc) (VDict body)));
             ReactionsAdd (dict_get "channel" event (VStr "")) (dict_get "ts" event (VStr ""))
               (VStr "eyes")]
         ++ logs
         ++ [Core (ChatPostMessage (dict_get "channel" event (VStr "")) (VStr "Yoo") VNone)]
         ++ after
    /\ forallb (fun e => negb (is_mention_post e)) (logs ++ after) = true
    /\ (forall posted,
          chat_postMessage (core svc) (dict_get "channel" event (VStr "")) (VStr "Yoo") VNone
          = Ret posted ->
          exists rest,
            after = Core (ReactionsRemove (dict_get "channel" event (VStr ""))
                            (dict_get "ts" event (VStr "")) (VStr "eyes")) :: rest).
Proof.
  intros He Ht Hadd. rewrite (handle_mentions_run _ _ _ _ _ He Ht Hadd). cbv zeta.
  set (channel := dict_get "channel" event (VStr "")).
  set (ts := dict_get "ts" event (VStr "")).
  exists (added_log channel ts (VStr "eyes")).
  assert (forallb (fun e => negb (is_mention_post e)) (added_log channel ts (VStr "eyes"))
          = true) as Hadded.
  { unfold added_log. by destruct (reactions_add svc _ _ _). }
  destruct (chat_postMessage (core svc) channel (VStr "Yoo") VNone) as [posted|e].
  - match goal with |- context [run_core (remove_reaction (core svc) ?c ?t ?r) ?tr2] =>
      destruct (remove_reaction_trace c t r tr2) as (logs & Hrm & Hlogs);
      destruct (run_core (remove_reaction (core svc) c t r) tr2) as [[?|?] tr3]
    end; cbn [snd] in Hrm; subst tr3; cbn [snd];
      exists (Core (ReactionsRemove channel ts (VStr "eyes")) :: map Core logs);
      (split; [by rewrite <- !app_assoc|]);
      (split; [|intros ? _; by eexists]);
      rewrite forallb_app, Hadded; cbn; apply (forallb_logs_quiet _ Hlogs).
  - exists []. cbn [snd]. split; [reflexivity|].
    split; [|discriminate]. by rewrite forallb_app, Hadded.
Qed.

(** X18: when the post of "Yoo" is refused, the handler ends with the
    platform's exception and the call that removes the "eyes" reaction is
    never made: the reaction stays on the message. *)
Theorem handle_mentions_post_refused (body event : dict) (text : string)
    (tr : list mention_event) (added : pyval) (e : exn) :
  dict_get "event" body (VDict []) = VDict event ->
  dict_get "text" body (VStr "") = VStr text ->
  fst (add_reaction svc (dict_get "channel" event (VStr "")) (dict_get "ts" event (VStr ""))
         (VStr "eyes")
         (tr ++ [Core (Log ("Received app mention: " +:+ py_str (core svc) (VDict body)))]))
  = Ret added ->
  chat_postMessage (core svc) (dict_get "channel" event (VStr "")) (VStr "Yoo") VNone
  = Raise e ->
  fst (handle_mentions svc body tr) = Raise e
  /\ exists logs,
       snd (handle_mentions svc body tr)
       = tr ++ [Core (Log ("Received app mention: " +:+ py_str (core svc) (VDict body)));
                ReactionsAdd (dict_get "channel" event (VStr ""))
                  (dict_get "ts" event (VStr "")) (VStr "eyes")]
            ++ logs
            ++ [Core (ChatPostMessage (dict_get "channel" event (VStr "")) (VStr "Yoo") VNone)]
       /\ forallb (fun e => match e with Core (Log _) => true | _ => false end) logs = true.
Proof.
  intros He Ht Hadd Hpost. rewrite (handle_mentions_run _ _ _ _ _ He Ht Hadd). cbv zeta.
  rewrite Hpost. split; [done|]. eexists. split; [reflexivity|].
  unfold added_log. by destruct (reactions_add svc _ _ _).
Qed.

End MentionHandler.

(** ** The events route *)

Section Events.

Import BeebrainApp EventsRoute.

Variable svc : services.

(** The reply of [POST /] in the shape of the events route's: no status of
    its own. *)
Definition plain_reply (r : outcome pyval * world) : outcome (pyval * option Z) * world :=
  match r with
  | (Ret response, w) => (Ret (response, None), w)
  | (Raise e, w) => (Raise e, w)
  end.

(** X19: [POST /events] answers every false body ([null], an empty object
    or array, zero, the empty text, [false]) with status 400 and the error
    "No data received", without calling the event router; every other body
    goes to the router, a challenge object included, which the route never
    answers itself.  On a non-empty object without a true challenge the
    route does exactly what [POST /] does; a true body that is not an
    object still goes to the router here, where [POST /] raises
    [AttributeError]. *)
Theorem slack_events_routes (data : pyval) (w : world) :
  (truthy data = false ->
   slack_events svc data w
   = (Ret (jsonify [("error", VStr "No data received")], Some 400), w))
  /\ (truthy data = true ->
      slack_events svc data w
      = plain_reply (handler_handle svc data
                       {| heap := heap w; trace := trace w ++ [HandlerHandle data] |}))
  /\ (forall d,
        data = VDict d -> d <> [] ->
        truthy (dict_get "challenge" d (VBool false)) = false ->
        slack_events svc data w = plain_reply (index svc data w))
  /\ (truthy data = true -> (forall d, data <> VDict d) ->
      index svc data w = (Raise (AttributeError "get"), w)
      /\ slack_events svc data w
         = plain_reply (handler_handle svc data
                          {| heap := heap w; trace := trace w ++ [HandlerHandle data] |})).
Proof.
  assert (truthy data = true ->
          slack_events svc data w
          = plain_reply (handler_handle svc data
                           {| heap := heap w; trace := trace w ++ [HandlerHandle data] |}))
    as Hrouter.
  { intros Ht. unfold slack_events, plain_reply, mbind, M_bind, emit, mret, M_ret.
    rewrite Ht. cbn [negb].
    by destruct (handler_handle svc _ _) as [[response|e] w']. }
  split; [|split; [exact Hrouter|split]].
  - intros Hf. unfold slack_events. by rewrite Hf.
  - intros d -> Hne Hch. rewrite Hrouter by (by destruct d).
    unfold index. by rewrite Hch.
  - intros Ht Hno. split; [|by apply Hrouter].
    destruct data as [| | | | |d]; try reflexivity. by destruct (Hno d).
Qed.

End Events.

(** ** The ingestion script *)

Section IngestionScript.

Import Ingestion.

Variable index_document : nat -> string -> dict -> outcome dict.

(** What one line leaves behind when its request is accepted. *)
Definition ingested_events (line : string) : list ingest_event :=
  [Index INDEX_NAME [("stuff", VStr line)]; Print (ingested line)].

(** A line as [readlines] cuts it: not empty, and with no line feed except
    as its last character. *)
Fixpoint one_line (s : string) : bool :=
  match s with
  | EmptyString => false
  | String c EmptyString => true
  | String c s' => negb (is_newline c) && one_line s'
  end.

Lemma joined_readlines (s : string) : joined (readlines s) = s.
Proof.
  induction s as [|c s IH]; [done|]. cbn [readlines].
  destruct (is_newline c).
  - unfold joined in *. cbn [fold_right]. by rewrite IH.
  - destruct (readlines s) as [|line lines]; unfold joined in *; cbn [fold_right] in *.
    + by rewrite <- IH.
    + by rewrite <- IH.
Qed.

Lemma one_line_readlines (s : string) :
  Forall (fun line => one_line line = true) (readlines s).
Proof.
  induction s as [|c s IH]; [constructor|]. cbn [readlines].
  destruct (is_newline c) eqn:Hc.
  - by constructor.
  - destruct (readlines s) as [|line lines]; [by repeat constructor|].
    inversion IH as [|? ? Hline Hlines]; subst. constructor; [|done].
    destruct line as [|c' line]; [done|].
    change (one_line (String c (String c' line)))
      with (negb (is_newline c) && one_line (String c' line)).
    by rewrite Hc, Hline.
Qed.

Lemma ingest_lines_accepted (sent : nat) (lines : list string) :
  (forall n body, exists r, index_document n INDEX_NAME body = Ret r) ->
  ingest_lines index_document sent lines = (Ret tt, flat_map ingested_events lines).
Proof.
  intros Hok. revert sent.
  induction lines as [|line lines IH]; intros sent; [done|]. cbn [ingest_lines flat_map].
  destruct (Hok sent [("stuff", VStr line)]) as [r ->].
  by rewrite IH.
Qed.

(** X20: when the search engine accepts every request, the script indexes
    one document per line of the file, in order, under [my_index], each
    [{"stuff": line}], and prints each line after its request.  The lines
    keep their line feeds: joined together they are the text of the file as
    read, none is empty, and none holds a line feed before its end. *)
Theorem ingestData_documents (text : string) :
  (forall n body, exists r, index_document n INDEX_NAME body = Ret r) ->
  ingestData index_document (Some text)
  = (Ret tt, flat_map ingested_events (readlines (universal_newlines text)))
  /\ joined (readlines (universal_newlines text)) = universal_newlines text
  /\ Forall (fun line => one_line line = true) (readlines (universal_newlines text)).
Proof.
  intros Hok. split; [|split].
  - unfold ingestData. by apply ingest_lines_accepted.
  - apply joined_readlines.
  - apply one_line_readlines.
Qed.

Lemma ingest_lines_stops (sent : nat) (before after : list string) (line : string) (e : exn) :
  (forall i l, before !! i = Some l ->
     exists r, index_document (sent + i) INDEX_NAME [("stuff", VStr l)] = Ret r) ->
  index_document (sent + length before) INDEX_NAME [("stuff", VStr line)] = Raise e ->
  ingest_lines index_document sent (before ++ line :: after)
  = (Raise e,
     flat_map ingested_events before ++ [Index INDEX_NAME [("stuff", VStr line)]]).
Proof.
  revert sent. induction before as [|l before IH]; intros sent Hok Hfail;
    cbn [app ingest_lines flat_map].
  - cbn [length] in Hfail. rewrite Nat.add_0_r in Hfail. by rewrite Hfail.
  - destruct (Hok 0%nat l eq_refl) as [r Hr]. rewrite Nat.add_0_r in Hr. rewrite Hr.
    rewrite (IH (S sent)).
    + reflexivity.
    + intros i l' Hl'. specialize (Hok (S i) l' Hl').
      by rewrite Nat.add_succ_r in Hok.
    + cbn [length] in Hfail. by rewrite Nat.add_succ_r in Hfail.
Qed.

(** X21: the first request the search engine refuses ends the script with
    that exception, whether or not an equal line was accepted before: the
    lines before it stay indexed, its own request was sent, and no later
    line is sent or printed. *)
Theorem ingestData_stops (text : string) (before after : list string)
    (line : string) (e : exn) :
  readlines (universal_newlines text) = before ++ line :: after ->
  (forall i l, before !! i = Some l ->
     exists r, index_document i INDEX_NAME [("stuff", VStr l)] = Ret r) ->
  index_document (length before) INDEX_NAME [("stuff", VStr line)] = Raise e ->
  ingestData index_document (Some text)
  = (Raise e,
     flat_map ingested_events before ++ [Index INDEX_NAME [("stuff", VStr line)]]).
Proof.
  intros Hlines Hok Hfail. unfold ingestData. rewrite Hlines.
  by apply ingest_lines_stops.
Qed.

End IngestionScript.

(** ** Concrete runs for the further properties *)

Section FurtherRuns.

Import LlmInteract SlackUtilities BeebrainApp InteractiveSession UserNames Mentions
  EventsRoute Ingestion.

Lemma fetch_thread_message_history_witness :
  fetch_thread_message (double 200 hello_stream) (VStr "C1") (VStr "1.0") 50 idle
  = (Ret (fresh (dom (heap idle))),
     {| heap := <[fresh (dom (heap idle))
                  := [VDict [("role", VStr "user"); ("content", VStr "U1: hi")]]]> (heap idle);
        trace := [ConversationsReplies (VStr "C1") (VStr "1.0") 50 VNone;
                  Log "Thread messages extracted contains 1 messages"] |}).
Proof.
  exact (fetch_thread_message_history (double 200 hello_stream) (VStr "C1") (VStr "1.0") 50
           idle
           [("ok", VBool true);
            ("messages", VList [VDict [("user", VStr "U1"); ("text", VStr "hi")]])]
           [[("user", VStr "U1"); ("text", VStr "hi")]]
           eq_refl eq_refl).
Defined.

(** A platform that refuses to remove the reaction. *)
Definition no_reaction : services :=
  {| conversations_replies := conversations_replies (double 200 hello_stream);
     requests_post := requests_post (double 200 hello_stream);
     chat_postMessage := chat_postMessage (double 200 hello_stream);
     reactions_remove := fun _ _ _ =>
       Raise (SlackApiError [("ok", VBool false); ("error", VStr "no_reaction")]);
     handler_handle := handler_handle (double 200 hello_stream);
     container_repr := container_repr (double 200 hello_stream) |}.

Lemma remove_reaction_swallows_witness :
  remove_reaction no_reaction (VStr "C1") (VStr "2.0") (VStr "eyes") idle
  = (Ret VNone,
     {| heap := heap idle;
        trace := trace idle ++ [ReactionsRemove (VStr "C1") (VStr "2.0") (VStr "eyes")] |}).
Proof.
  destruct (remove_reaction_swallows no_reaction (VStr "C1") (VStr "2.0") (VStr "eyes") idle)
    as [H _].
  exact (H [("ok", VBool false); ("error", VStr "no_reaction")] eq_refl eq_refl).
Defined.

Lemma handle_messages_after_failed_fetch_witness :
  exists new,
    trace (snd (handle_messages (failing_fetch (SlackApiError channel_not_found))
                  threaded_body idle))
    = trace idle
      ++ [ConversationsReplies (VStr "C1") (VStr "1.0") 50 VNone;
          Log "Invoking LLM chat enpoint ...";
          RequestsPost endpoint (request_json [system_message]) true]
      ++ new.
Proof.
  exact (handle_messages_after_failed_fetch (failing_fetch (SlackApiError channel_not_found))
           threaded_body threaded_event idle channel_not_found
           eq_refl eq_refl eq_refl eq_refl).
Defined.

(** A session whose history is the empty list object 1. *)
Definition fresh_session : world := {| heap := {[ 1%positive := [] ]}; trace := [] |}.

Lemma session_turn_witness :
  session (double 200 hello_stream) 1%positive ["hi"; ""] [] fresh_session
  = session (double 200 hello_stream) 1%positive [""] ([] ++ [prompt; nl; nl +:+ nl +:+ nl])
      {| heap := <[1%positive := system_message :: [] ++ [user_message "hi"; VStr "Hello"]]>
                   (heap fresh_session);
         trace := trace fresh_session
                  ++ [Log "Invoking LLM chat enpoint ...";
                      RequestsPost endpoint
                        (request_json (system_message :: [] ++ [user_message "hi"])) true] |}.
Proof.
  destruct (session_turn (double 200 hello_stream) 1%positive [] "hi" [""] [] fresh_session)
    as [H _]; [reflexivity | discriminate |].
  apply (H (VStr "Hello")). reflexivity.
Defined.

(** The whole session of that run: one turn, then the blank line ends it. *)
Example main_one_turn :
  fst (fst (main (double 200 hello_stream) ["hi"; ""] idle)) = Raise (OtherError "SystemExit")
  /\ snd (main (double 200 hello_stream) ["hi"; ""] idle)
     = [prompt; nl; nl +:+ nl +:+ nl; prompt].
Proof. split; vm_compute; reflexivity. Qed.

(** A user directory that knows one user. *)
Definition directory (user_id : pyval) : outcome dict :=
  match user_id with
  | VStr "U1" =>
      Ret [("ok", VBool true); ("user", VDict [("id", VStr "U1"); ("real_name", VStr "Ada")])]
  | _ => Raise (SlackApiError [("ok", VBool false); ("error", VStr "user_not_found")])
  end.

Lemma get_user_name_result_witness :
  VStr "Ada" = VStr "Unknown User"
  \/ exists response user_info,
       directory (VStr "U1") = Ret response
       /\ dict_lookup "user" response = Some (VDict user_info)
       /\ dict_lookup "real_name" user_info = Some (VStr "Ada").
Proof.
  destruct (get_user_name_result directory (VStr "U1")) as [_ H].
  apply (H (VStr "Ada")). reflexivity.
Defined.

Example get_user_name_unknown :
  get_user_name directory (VStr "U2") = Ret (VStr "Unknown User").
Proof. reflexivity. Qed.

(** A mention of the bot in channel C1. *)
Definition mention_body : dict :=
  [("event", VDict [("type", VStr "app_mention"); ("channel", VStr "C1");
                    ("ts", VStr "2.0"); ("text", VStr "<@B1> hi")])].

Definition mention_event_object : dict :=
  [("type", VStr "app_mention"); ("channel", VStr "C1");
   ("ts", VStr "2.0"); ("text", VStr "<@B1> hi")].

Definition mentions_double (core_services : services) : mention_services :=
  {| core := core_services;
     reactions_add := fun _ _ _ => Ret [("ok", VBool true)] |}.

(** A platform that refuses every post. *)
Definition no_post : services :=
  {| conversations_replies := conversations_replies (double 200 hello_stream);
     requests_post := requests_post (double 200 hello_stream);
     chat_postMessage := fun _ _ _ =>
       Raise (SlackApiError [("ok", VBool false); ("error", VStr "channel_not_found")]);
     reactions_remove := reactions_remove (double 200 hello_stream);
     handler_handle := handler_handle (double 200 hello_stream);
     container_repr := container_repr (double 200 hello_stream) |}.

Lemma handle_mentions_posts_yoo_witness :
  exists logs after,
    snd (handle_mentions (mentions_double (double 200 hello_stream)) mention_body [])
    = [] ++ [Core (Log ("Received app mention: "
                        +:+ py_str (double 200 hello_stream) (VDict mention_body)));
             ReactionsAdd (VStr "C1") (VStr "2.0") (VStr "eyes")]
         ++ logs
         ++ [Core (ChatPostMessage (VStr "C1") (VStr "Yoo") VNone)]
         ++ after
    /\ forallb (fun e => negb (is_mention_post e)) (logs ++ after) = true
    /\ (forall posted,
          chat_postMessage (double 200 hello_stream) (VStr "C1") (VStr "Yoo") VNone = Ret posted ->
          exists rest,
            after = Core (ReactionsRemove (VStr "C1") (VStr "2.0") (VStr "eyes")) :: rest).
Proof.
  exact (handle_mentions_posts_yoo (mentions_double (double 200 hello_stream))
           mention_body mention_event_object "" [] (VDict [("ok", VBool true)])
           eq_refl eq_refl eq_refl).
Defined.

Lemma handle_mentions_post_refused_witness :
  fst (handle_mentions (mentions_double no_post) mention_body [])
  = Raise (SlackApiError [("ok", VBool false); ("error", VStr "channel_not_found")])
  /\ exists logs,
       snd (handle_mentions (mentions_double no_post) mention_body [])
       = [] ++ [Core (Log ("Received app mention: " +:+ py_str no_post (VDict mention_body)));
                ReactionsAdd (VStr "C1") (VStr "2.0") (VStr "eyes")]
            ++ logs
            ++ [Core (ChatPostMessage (VStr "C1") (VStr "Yoo") VNone)]
       /\ forallb (fun e => match e with Core (Log _) => true | _ => false end) logs = true.
Proof.
  exact (handle_mentions_post_refused (mentions_double no_post)
           mention_body mention_event_object "" [] (VDict [("ok", VBool true)])
           (SlackApiError [("ok", VBool false); ("error", VStr "channel_not_found")])
           eq_refl eq_refl eq_refl eq_refl).
Defined.

Lemma slack_events_routes_witness :
  slack_events (double 200 hello_stream) (VList []) idle
  = (Ret (jsonify [("error", VStr "No data received")], Some 400), idle)
  /\ slack_events (double 200 hello_stream) (VDict [("challenge", VStr "abc123")]) idle
     = (Ret (VNone, None),
        {| heap := ∅; trace := [HandlerHandle (VDict [("challenge", VStr "abc123")])] |})
  /\ slack_events (double 200 hello_stream) (VDict threaded_body) idle
     = plain_reply (index (double 200 hello_stream) (VDict threaded_body) idle)
  /\ (index (double 200 hello_stream) (VList [VInt 1]) idle
      = (Raise (AttributeError "get"), idle)
      /\ slack_events (double 200 hello_stream) (VList [VInt 1]) idle
         = (Ret (VNone, None), {| heap := ∅; trace := [HandlerHandle (VList [VInt 1])] |})).
Proof.
  split; [|split; [|split]].
  - destruct (slack_events_routes (double 200 hello_stream) (VList []) idle) as [H _].
    exact (H eq_refl).
  - destruct (slack_events_routes (double 200 hello_stream)
                (VDict [("challenge", VStr "abc123")]) idle) as (_ & H & _).
    exact (H eq_refl).
  - destruct (slack_events_routes (double 200 hello_stream) (VDict threaded_body) idle)
      as (_ & _ & H & _).
    apply (H threaded_body eq_refl); [discriminate | reflexivity].
  - destruct (slack_events_routes (double 200 hello_stream) (VList [VInt 1]) idle)
      as (_ & _ & _ & H).
    apply H; [reflexivity | intros d; discriminate].
Defined.

(** A search engine that accepts everything, a three-line file with a
    Windows line end, a file of three equal lines, and an engine that goes
    down after its first request. *)
Definition accepting (sent : nat) (index : string) (body : dict) : outcome dict :=
  Ret [("result", VStr "created")].

Definition three_lines : string :=
  "a" +:+ String (ascii_of_nat 13) nl +:+ "b" +:+ nl +:+ "c".

Definition same_lines : string := "a" +:+ nl +:+ "a" +:+ nl +:+ "a".

Definition down_after_one (sent : nat) (index : string) (body : dict) : outcome dict :=
  match sent with
  | O => Ret [("result", VStr "created")]
  | S _ => Raise (OtherError "ConnectionError")
  end.

Lemma ingestData_documents_witness :
  ingestData accepting (Some three_lines)
  = (Ret tt, flat_map ingested_events ["a" +:+ nl; "b" +:+ nl; "c"])
  /\ joined ["a" +:+ nl; "b" +:+ nl; "c"] = "a" +:+ nl +:+ "b" +:+ nl +:+ "c"
  /\ Forall (fun line => one_line line = true) ["a" +:+ nl; "b" +:+ nl; "c"].
Proof.
  apply (ingestData_documents accepting three_lines).
  intros n body. by eexists.
Defined.

Lemma ingestData_stops_witness :
  ingestData down_after_one (Some same_lines)
  = (Raise (OtherError "ConnectionError"),
     flat_map ingested_events ["a" +:+ nl] ++ [Index INDEX_NAME [("stuff", VStr ("a" +:+ nl))]]).
Proof.
  apply (ingestData_stops down_after_one same_lines ["a" +:+ nl] ["a"] ("a" +:+ nl)).
  - reflexivity.
  - intros [|i] l Hl; [|discriminate]. by eexists.
  - reflexivity.
Defined.

End FurtherRuns.

(** ** A stream that ends early *)

Section LastProperties.

Import LlmInteract.

Lemma stream_loop_unfinished (st st' : locals) (lines : list line) :
  advance st lines = Some st' -> stream_loop st lines = (Ret VNone, []).
Proof.
  revert st. induction lines as [|ln lines IH]; intros st Hadv; [done|].
  cbn [advance] in Hadv. cbn [stream_loop].
  destruct (frame st ln); try discriminate. by apply IH.
Qed.

(** X22: when the stream runs out before a final frame (an empty stream
    included), [chat] returns [None]: the text accumulated so far is not
    returned, and no exception is raised. *)
Theorem chat_unfinished_stream (svc : services) (messages : loc) (w : world)
    (lines : list line) (st : locals) :
  streams svc messages w lines ->
  advance initial lines = Some st ->
  fst (chat svc messages w) = Ret VNone.
Proof.
  intros Hs Hadv. rewrite (chat_streams _ _ _ _ Hs).
  by rewrite (stream_loop_unfinished _ _ _ Hadv).
Qed.

Lemma chat_unfinished_stream_witness :
  fst (chat (double 200 [ollama_frame false "Hel"; ollama_frame false "lo"])
         1%positive caller) = Ret VNone.
Proof.
  apply (chat_unfinished_stream (double 200 [ollama_frame false "Hel"; ollama_frame false "lo"])
           1%positive caller [ollama_frame false "Hel"; ollama_frame false "lo"]
           {| output := "Hello";
              message := Some (VDict [("role", VStr "assistant"); ("content", VStr "lo")]) |}).
  - apply double_streams.
  - reflexivity.
Defined.

End LastProperties.
